(** * Molecular complex analysis pipeline

    A shallow embedding of [molecular_analyzer.py] (class
    [MolecularComplexAnalyzer]) and the properties its specification
    states about it.

    Conventions of the embedding.
    - In the model of the pipeline, Python floats (and NumPy float64)
      are idealised as real numbers [R]: rounding, infinities and NaN
      are not represented there.  Where a property depends on rounding,
      the function is given a second time with the arithmetic of the
      code, IEEE binary64 (module [Binary64]), and the property is
      settled there.
    - An [ase.Atoms] object is a record of the two arrays the script
      reads and writes (element symbols, positions) and the attached
      calculator.  Objects live in a store ([heap]) and are passed by
      reference ([loc]), so that in-place updates ([translate],
      [set_calculator], the optimizer) and copies are told apart.
    - Code that is not part of the script (the ASE reader, the BFGS
      optimizer, the force-field calculator, NumPy's random generator,
      the tables of atomic masses and numbers, Python's [float], the
      file system behind [open]) is gathered in the class [Externals].
    - Exceptions are values: a computation returns [Returns v] or
      [Raises e] together with the state it leaves behind. *)

From Stdlib Require Import Reals Lra Lia ZArith String Ascii List.
From Stdlib Require Import Sorting.Permutation Sorting.Sorted.
From Stdlib Require Floats.
From stdpp Require Import base list strings pretty.

Local Open Scope Z_scope.
Local Open Scope R_scope.
Local Open Scope nat_scope.

(** ** Exceptions and results *)

Inductive exn : Type :=
| ValueError (msg : string)
| IndexError (msg : string)
| KeyError (key : string)
| OSError (msg : string)
| Exception (msg : string).

(** [str(e)]; for a [KeyError] it is the key between quotes *)
Definition str (e : exn) : string :=
  match e with
  | ValueError m | IndexError m | OSError m | Exception m => m
  | KeyError key => "'" +:+ key +:+ "'"
  end.

Inductive result (A : Type) : Type :=
| Returns (a : A)
| Raises (e : exn).
Arguments Returns {A} a.
Arguments Raises {A} e.

(** ** Python's string methods, on ASCII text *)

Module Py.

Definition code_in (lo hi : nat) (c : ascii) : bool :=
  let n := nat_of_ascii c in (lo <=? n) && (n <=? hi).

(** [str.isspace] on the ASCII range: TAB..CR, FS..US and the space. *)
Definition isspace (c : ascii) : bool := code_in 9 13 c || code_in 28 32 c.
Definition isdigit (c : ascii) : bool := code_in 48 57 c.
Definition isalpha (c : ascii) : bool := code_in 65 90 c || code_in 97 122 c.

Fixpoint lstrip_chars (l : list ascii) : list ascii :=
  match l with
  | c :: l' => if isspace c then lstrip_chars l' else l
  | [] => []
  end.

Definition strip_chars (l : list ascii) : list ascii :=
  rev (lstrip_chars (rev (lstrip_chars l))).

(** [s.strip()] *)
Definition strip (s : string) : string :=
  string_of_list_ascii (strip_chars (list_ascii_of_string s)).

(** [s.split()]: the maximal runs of non-whitespace characters.
    [cur] is the run being read, last character first. *)
Fixpoint split_chars (cur : list ascii) (l : list ascii) : list string :=
  match l with
  | [] => match cur with
          | [] => []
          | _ => [string_of_list_ascii (rev cur)]
          end
  | c :: l' =>
      if isspace c then
        match cur with
        | [] => split_chars [] l'
        | _ => string_of_list_ascii (rev cur) :: split_chars [] l'
        end
      else split_chars (c :: cur) l'
  end.

Definition split (s : string) : list string :=
  split_chars [] (list_ascii_of_string s).

(** [s.startswith(c)] for a one-character prefix *)
Definition startswith (s : string) (c : ascii) : bool :=
  match s with
  | String c' _ => Ascii.eqb c' c
  | EmptyString => false
  end.

(** [any(p(char) for char in s)] *)
Definition any (p : ascii -> bool) (s : string) : bool :=
  existsb p (list_ascii_of_string s).

(** truth value of a string and of a list *)
Definition truthy_str (s : string) : bool :=
  match s with EmptyString => false | _ => true end.
Definition truthy {A} (l : list A) : bool :=
  match l with [] => false | _ => true end.

(** [x in l] for a list of strings *)
Definition contains (x : string) (l : list string) : bool :=
  existsb (String.eqb x) l.

End Py.

(** ** Decimal float literals

    The finite part of the grammar that Python's [float] accepts:
    [[sign] (digitpart ["." [digitpart]] | "." digitpart) [exponent]],
    where a digitpart is a run of digits that may be separated by
    single underscores.  The value is the real number denoted. *)

Module FloatLiteral.

Definition digit_val (c : ascii) : option Z :=
  if Py.isdigit c then Some (Z.of_nat (nat_of_ascii c) - 48)%Z else None.

(** After a first digit: [(["_"] digit)*].  [acc] is the value read so
    far and [n] the number of digits. *)
Fixpoint digits_rest (acc : Z) (n : nat) (l : list ascii)
  : Z * nat * list ascii :=
  match l with
  | c :: l' =>
      match digit_val c with
      | Some d => digits_rest (10 * acc + d)%Z (S n) l'
      | None =>
          if Ascii.eqb c "_" then
            match l' with
            | c2 :: l'' =>
                match digit_val c2 with
                | Some d => digits_rest (10 * acc + d)%Z (S n) l''
                | None => (acc, n, l)
                end
            | [] => (acc, n, l)
            end
          else (acc, n, l)
      end
  | [] => (acc, n, [])
  end.

(** [digitpart acc l]: a digit part read after the digits already
    accumulated in [acc]; the value, the number of digits read, the rest. *)
Definition digitpart (acc : Z) (l : list ascii) : option (Z * nat * list ascii) :=
  match l with
  | c :: l' =>
      match digit_val c with
      | Some d => Some (digits_rest (10 * acc + d)%Z 1 l')
      | None => None
      end
  | [] => None
  end.

Definition sign (l : list ascii) : bool * list ascii :=
  match l with
  | c :: l' =>
      if Ascii.eqb c "-" then (true, l')
      else if Ascii.eqb c "+" then (false, l')
      else (false, l)
  | [] => (false, [])
  end.

(** mantissa, number of fractional digits, rest *)
Definition number (l : list ascii) : option (Z * nat * list ascii) :=
  match digitpart 0 l with
  | Some (ip, _, rest) =>
      match rest with
      | c :: rest' =>
          if Ascii.eqb c "." then
            match digitpart ip rest' with
            | Some r => Some r
            | None => Some (ip, 0, rest')
            end
          else Some (ip, 0, rest)
      | [] => Some (ip, 0, [])
      end
  | None =>
      match l with
      | c :: rest' => if Ascii.eqb c "." then digitpart 0 rest' else None
      | [] => None
      end
  end.

(** the decimal exponent, [0] when there is none *)
Definition exponent (l : list ascii) : option (Z * list ascii) :=
  match l with
  | c :: l' =>
      if Ascii.eqb c "e" || Ascii.eqb c "E" then
        let '(neg, l'') := sign l' in
        match digitpart 0 l'' with
        | Some (e, _, rest) => Some (if neg then (- e)%Z else e, rest)
        | None => None
        end
      else Some (0%Z, l)
  | [] => Some (0%Z, [])
  end.

(** mantissa and decimal exponent of a literal *)
Definition decimal (s : string) : option (Z * Z) :=
  let '(neg, l) := sign (Py.strip_chars (list_ascii_of_string s)) in
  match number l with
  | Some (m, nfrac, rest) =>
      match exponent rest with
      | Some (e, []) => Some (if neg then (- m)%Z else m, (e - Z.of_nat nfrac)%Z)
      | _ => None
      end
  | None => None
  end.

Definition to_R (d : Z * Z) : R := (IZR (fst d) * powerRZ 10 (snd d))%R.

Definition float (s : string) : option R := to_R <$> decimal s.

End FloatLiteral.

(** ** Data model: atomic structures *)

Definition vec3 : Type := R * R * R.

Definition vadd (p q : vec3) : vec3 :=
  let '(x1, y1, z1) := p in let '(x2, y2, z2) := q in
  (x1 + x2, y1 + y2, z1 + z2)%R.
Definition vsub (p q : vec3) : vec3 :=
  let '(x1, y1, z1) := p in let '(x2, y2, z2) := q in
  (x1 - x2, y1 - y2, z1 - z2)%R.
Definition vscale (k : R) (p : vec3) : vec3 :=
  let '(x, y, z) := p in (k * x, k * y, k * z)%R.
Definition vdiv (p : vec3) (k : R) : vec3 :=
  let '(x, y, z) := p in (x / k, y / k, z / k)%R.
Definition vzero : vec3 := (0, 0, 0)%R.
Definition vec_z (p : vec3) : R := snd p.
Definition vec_tolist (p : vec3) : list R :=
  let '(x, y, z) := p in [x; y; z].
(** [np.linalg.norm] *)
Definition vnorm (p : vec3) : R :=
  let '(x, y, z) := p in sqrt (x * x + y * y + z * z).

(** [np.sum] of a list of numbers, and of a list of rows *)
Definition Rsum (l : list R) : R := fold_left Rplus l 0%R.
Definition vsum (l : list vec3) : vec3 := fold_left vadd l vzero.

(** An [ase.Atoms] object: the arrays the script uses. *)
Record Atoms (Calc : Type) : Type := mkAtoms {
  symbols : list string;
  positions : list vec3;
  calc : option Calc
}.
Arguments mkAtoms {Calc} symbols positions calc.
Arguments symbols {Calc} a.
Arguments positions {Calc} a.
Arguments calc {Calc} a.

(** The invariant of the data model. *)
Definition well_formed {Calc} (a : Atoms Calc) : Prop :=
  length (symbols a) = length (positions a).

(** ** What the script takes from outside *)

Class Externals : Type := {
  (** the force-field calculator objects ([OCPCalculator]) *)
  Calc : Type;
  (** the state of NumPy's global random generator *)
  Rng : Type;
  (** Python's [float(s)]: [None] stands for [ValueError] *)
  float : string -> option R;
  (** [open(path, 'r')]: the exception it raises, if any
      ([FileNotFoundError] and the other subclasses of [OSError]) *)
  open_error : string -> option exn;
  (** the lines of the file at a path that can be opened, as
      [f.readlines()] gives them *)
  readlines : string -> list string;
  (** [open(path, 'w')]: the exception it raises, if any *)
  write_error : string -> option exn;
  (** [ase.io.read(filepath, format='gaussian-in')] *)
  ase_read : string -> result (Atoms Calc);
  (** [BFGS(atoms, trajectory=...).run(fmax, steps)] with the calculator
      attached to the structure: the structure as the optimizer leaves
      it, and the number of steps taken or the exception raised *)
  bfgs_run : Atoms Calc -> R -> nat -> Atoms Calc * result nat;
  (** whether that call got as far as creating its trajectory file *)
  bfgs_trajectory : Atoms Calc -> R -> nat -> bool;
  (** [id(obj)] of the object at a reference *)
  object_id : nat -> nat;
  (** whether ASE's table of elements has the symbol *)
  known_symbol : string -> bool;
  (** ASE's table of atomic masses and of atomic numbers *)
  mass : string -> R;
  atomic_number : string -> Z;
  (** [np.random.normal(loc, scale)] *)
  normal : R -> R -> Rng -> R * Rng;
  (** [atoms.get_potential_energy()] and [atoms.get_forces()] with the
      calculator that is attached *)
  get_potential_energy : Atoms Calc -> result R;
  get_forces : Atoms Calc -> result (list vec3)
}.

Section Model.
Context {E : Externals}.

Definition atoms : Type := Atoms Calc.

(** *** Read-only methods of [ase.Atoms] *)

Definition len (a : atoms) : nat := length (positions a).
Definition get_chemical_symbols (a : atoms) : list string := symbols a.
Definition get_positions (a : atoms) : list vec3 := positions a.
Definition get_masses (a : atoms) : list R := map mass (symbols a).
Definition get_atomic_numbers (a : atoms) : list Z := map atomic_number (symbols a).

(** [masses @ positions / masses.sum()] *)
Definition get_center_of_mass (a : atoms) : vec3 :=
  vdiv (vsum (zip_with vscale (get_masses a) (positions a)))
       (Rsum (get_masses a)).

(** *** Updates of one object, as functions on its contents *)

(** [a.copy()]: fresh arrays, no calculator *)
Definition copy_of (a : atoms) : atoms :=
  mkAtoms (symbols a) (positions a) None.
(** [a.translate(d)] *)
Definition translated (d : vec3) (a : atoms) : atoms :=
  mkAtoms (symbols a) (map (fun p => vadd p d) (positions a)) (calc a).
(** [a += b] *)
Definition extended (b : atoms) (a : atoms) : atoms :=
  mkAtoms (symbols a ++ symbols b) (positions a ++ positions b) (calc a).
(** [a.set_calculator(c)] *)
Definition with_calculator (c : Calc) (a : atoms) : atoms :=
  mkAtoms (symbols a) (positions a) (Some c).

(** ** The state of a run *)

(** What a written file holds: literal text, coordinate rows and
    property rows whose numbers are kept as values, or the frames of an
    optimizer's trajectory, whose encoding is ASE's. *)
Inductive site : Type :=
  mkSite (atom_index : nat) (element : string) (position : list R).

Inductive pvalue : Type :=
| PInt (n : nat)
| PFloat (x : R)
| PList (l : list R)
| PSites (l : list site)
| PFreqs (l : list Z)
| PStr (s : string).

Inductive chunk : Type :=
| Text (s : string)
| CoordRow (symbol : string) (p : vec3)
| PropRow (key : string) (v : pvalue)
| Trajectory.

Definition loc : Type := nat.

(** The store of [Atoms] objects, the lines printed so far, the files
    written so far (oldest first), those of the script and the
    trajectory files it asks the optimizer for, and the random
    generator. *)
Record world : Type := mkWorld {
  heap : list atoms;
  stdout : list string;
  written : list (string * list chunk);
  rng : Rng
}.

(** ** Computations with state and exceptions *)

Definition St (S A : Type) : Type := S -> result A * S.

Definition ret {S A} (a : A) : St S A := fun s => (Returns a, s).
Definition raise {S A} (e : exn) : St S A := fun s => (Raises e, s).
Definition bind {S A B} (m : St S A) (k : A -> St S B) : St S B :=
  fun s => match m s with
           | (Returns a, s') => k a s'
           | (Raises e, s') => (Raises e, s')
           end.
(** [try: m  except Exception as e: h e] *)
Definition try_except {S A} (m : St S A) (h : exn -> St S A) : St S A :=
  fun s => match m s with
           | (Returns a, s') => (Returns a, s')
           | (Raises e, s') => h e s'
           end.
Definition of_result {S A} (r : result A) : St S A := fun s => (r, s).
Definition get_state {S} : St S S := fun s => (Returns s, s).
Definition modify {S} (f : S -> S) : St S unit := fun s => (Returns tt, f s).

End Model.

Declare Scope st_scope.
Delimit Scope st_scope with st.
Notation "'let!' x ':=' m 'in' k" := (bind m (fun x => k))
  (at level 10, x pattern, m at level 100, k at level 200) : st_scope.
Notation "'do!' m 'in' k" := (bind m (fun _ => k))
  (at level 10, m at level 100, k at level 200) : st_scope.
Local Open Scope st_scope.

(** ** The object store and the other effects *)

Section Effects.
Context {E : Externals}.

(** the world after one more line of output *)
Definition printed (s : string) (w : world) : world :=
  mkWorld (heap w) (stdout w ++ [s]) (written w) (rng w).

Definition print (s : string) : St world unit := modify (printed s).

(** the world after one more file *)
Definition with_file (name : string) (content : list chunk) (w : world) : world :=
  mkWorld (heap w) (stdout w) (written w ++ [(name, content)]) (rng w).

(** [with open(name, 'w') as f: f.write(...) ...]: nothing is written
    when the file cannot be opened *)
Definition write_file (name : string) (content : list chunk) : St world unit :=
  match write_error name with
  | Some e => raise e
  | None => modify (with_file name content)
  end.

Definition set_heap (h : list atoms) (w : world) : world :=
  mkWorld h (stdout w) (written w) (rng w).

(** the world after one more object *)
Definition allocated (a : atoms) (w : world) : world :=
  set_heap (heap w ++ [a]) w.

(** a new object; its reference is the next free slot of the store *)
Definition new_object (a : atoms) : St world loc :=
  fun w => (Returns (length (heap w)), allocated a w).

Definition deref (l : loc) : St world atoms :=
  fun w => match heap w !! l with
           | Some a => (Returns a, w)
           | None => (Raises (Exception "invalid reference"), w)
           end.

(** in-place update of the object at [l] *)
Definition update (l : loc) (f : atoms -> atoms) : St world unit :=
  fun w => match heap w !! l with
           | Some a => (Returns tt, set_heap (<[l := f a]> (heap w)) w)
           | None => (Raises (Exception "invalid reference"), w)
           end.

(** [np.random.normal(loc, scale)] and [np.random.normal(loc, scale, n)] *)
Definition random_normal (mu sigma : R) : St world R :=
  fun w => let '(x, g) := normal mu sigma (rng w) in
           (Returns x, mkWorld (heap w) (stdout w) (written w) g).

Fixpoint random_normal_n (mu sigma : R) (n : nat) : St world (list R) :=
  match n with
  | O => ret []
  | S n' =>
      let! x := random_normal mu sigma in
      let! xs := random_normal_n mu sigma n' in
      ret (x :: xs)
  end.

(** *** Methods of [ase.Atoms], on references *)

(** the double quote *)
Definition dq : string := String "034"%char EmptyString.

(** What the constructor [Atoms(symbols=symbols, positions=positions)]
    checks.  ASE first turns every symbol into its atomic number
    ([atomic_numbers[s]], a [KeyError] for a string that is no element),
    then stores the positions, and raises [ValueError] when there are
    not as many of them as of symbols.  No calculator is attached. *)
Definition Atoms_init (symbols : list string) (positions : list vec3)
  : result atoms :=
  match find (fun s => negb (known_symbol s)) symbols with
  | Some s => Raises (KeyError s)
  | None =>
      if length positions =? length symbols
      then Returns (mkAtoms symbols positions None)
      else Raises (ValueError
                     ("Array " +:+ dq +:+ "positions" +:+ dq
                      +:+ " has wrong length: " +:+ pretty (length positions)
                      +:+ " != " +:+ pretty (length symbols) +:+ "."))
  end.

(** [Atoms(symbols=symbols, positions=positions)] *)
Definition Atoms_new (symbols : list string) (positions : list vec3) : St world loc :=
  let! a := of_result (Atoms_init symbols positions) in
  new_object a.

Definition copy (l : loc) : St world loc :=
  let! a := deref l in new_object (copy_of a).

Definition translate (l : loc) (d : vec3) : St world unit :=
  update l (translated d).

Definition set_calculator (l : loc) (c : Calc) : St world unit :=
  update l (with_calculator c).

(** [l1 + l2]: a copy of the first operand, extended by the second *)
Definition add (l1 l2 : loc) : St world loc :=
  let! c := copy l1 in
  let! b := deref l2 in
  do! update c (extended b) in
  ret c.

(** [BFGS(atoms, trajectory=name).run(fmax, steps)], which moves the atoms
    of the object it is given and leaves its trajectory file *)
Definition run_bfgs (l : loc) (trajectory : string) (fmax : R) (steps : nat)
  : St world nat :=
  let! a := deref l in
  let '(a', r) := bfgs_run a fmax steps in
  do! update l (fun _ => a') in
  do! (if bfgs_trajectory a fmax steps
       then modify (with_file trajectory [Trajectory])
       else ret tt) in
  of_result r.

End Effects.

(** ** The analyzer *)

Record analyzer {E : Externals} : Type := mkAnalyzer {
  fairchem_calc : option Calc
}.
Arguments mkAnalyzer {E} fairchem_calc.

Section Parsing.
Context {E : Externals}.

(** The body of [if len(parts) >= 4: try: ... except (ValueError,
    IndexError): continue], on the lists built so far.  [float] raises
    [ValueError] on a field that is not a number; the symbol has then
    been appended already. *)
Definition read_atom_line (line : string)
    (symbols : list string) (positions : list vec3)
  : list string * list vec3 :=
  match Py.split line with
  | p0 :: p1 :: p2 :: p3 :: _ =>
      let symbols := symbols ++ [p0] in
      match float p1 with
      | None => (symbols, positions)
      | Some x =>
          match float p2 with
          | None => (symbols, positions)
          | Some y =>
              match float p3 with
              | None => (symbols, positions)
              | Some z => (symbols, positions ++ [(x, y, z)])
              end
          end
      end
  | _ => (symbols, positions)
  end.

(** One turn of [for line in lines], on [(coord_section, (symbols,
    positions))]. *)
Definition scan_line (st : bool * (list string * list vec3)) (raw : string)
  : bool * (list string * list vec3) :=
  let '(coord_section, (symbols, positions)) := st in
  let line := Py.strip raw in
  if negb (Py.truthy_str line) || Py.startswith line "#" || Py.startswith line "%"
  then st
  else if coord_section && Py.truthy_str line
  then (coord_section, read_atom_line line symbols positions)
  else if Py.truthy_str line && negb coord_section then
    if Py.any Py.isdigit line && Py.any Py.isalpha line
    then (true, read_atom_line line symbols positions)
    else st
  else st.

(** the two lists when the loop is over *)
Definition scan_lines (lines : list string) : list string * list vec3 :=
  snd (fold_left scan_line lines (false, ([], []))).

Definition _manual_gjf_parse (filepath : string) : St world loc :=
  match open_error filepath with
  | Some e => raise e
  | None =>
      let lines := readlines filepath in
      let '(symbols, positions) := scan_lines lines in
      if Py.truthy symbols && Py.truthy positions
      then Atoms_new symbols positions
      else raise (ValueError "Could not parse coordinates from .gjf file")
  end.

Definition parse_gjf_file (filepath : string) : St world loc :=
  try_except
    (let! a := of_result (ase_read filepath) in new_object a)
    (fun e =>
       do! print ("Error reading " +:+ filepath +:+ ": " +:+ str e) in
       _manual_gjf_parse filepath).

End Parsing.

Section Pipeline.
Context {E : Externals}.

(** ** Optimization and complex formation *)

Definition optimize_structure (self : analyzer) (atoms : loc)
    (fmax : R) (steps : nat) : St world loc :=
  match fairchem_calc self with
  | None =>
      do! print "FairChem calculator not available, returning original structure" in
      ret atoms
  | Some c =>
      try_except
        (let! atoms_copy := copy atoms in
         do! set_calculator atoms_copy c in
         let! n := run_bfgs atoms_copy
                     ("optimization_" +:+ pretty (object_id atoms) +:+ ".traj")
                     fmax steps in
         do! print ("Optimization completed in " +:+ pretty n +:+ " steps") in
         ret atoms_copy)
        (fun e =>
           do! print ("Optimization failed: " +:+ str e) in
           ret atoms)
  end.

Definition create_complex (absorbent analyte : loc) (separation_distance : R)
  : St world loc :=
  let! abs_com := (let! a := deref absorbent in ret (get_center_of_mass a)) in
  let! ana_com := (let! b := deref analyte in ret (get_center_of_mass b)) in
  let! analyte_copy := copy analyte in
  let displacement :=
    vsub (vadd (0, 0, separation_distance)%R abs_com) ana_com in
  do! translate analyte_copy displacement in
  let! complex_atoms := add absorbent analyte_copy in
  ret complex_atoms.

Definition optimize_complex (self : analyzer) (complex_atoms : loc)
    (fmax : R) (steps : nat) : St world loc :=
  optimize_structure self complex_atoms fmax steps.

(** ** Property estimates *)

Definition vdw_radii : list (string * R) :=
  [("H", 1.2); ("C", 1.7); ("N", 1.55); ("O", 1.52); ("S", 1.8); ("P", 1.8)]%R.

(** [d.get(key, default)] *)
Fixpoint dict_get_default {V} (d : list (string * V)) (key : string) (default : V) : V :=
  match d with
  | (k, v) :: d' => if String.eqb key k then v else dict_get_default d' key default
  | [] => default
  end.

Definition _calculate_molecular_volume (a : atoms) : R :=
  fold_left
    (fun total_volume symbol =>
       let radius := dict_get_default vdw_radii symbol 1.5%R in
       (total_volume + 4 / 3 * PI * radius ^ 3)%R)
    (get_chemical_symbols a) 0%R.

Definition _estimate_homo_lumo_gap (a : atoms) : St world R :=
  let n_electrons := fold_left Z.add (get_atomic_numbers a) 0%Z in
  if (n_electrons <? 10)%Z then
    let! x := random_normal 0 0.5 in ret (8.0 + x)%R
  else if (n_electrons <? 50)%Z then
    let! x := random_normal 0 1.0 in ret (4.0 + x)%R
  else
    let! x := random_normal 0 0.5 in ret (2.0 + x)%R.

Definition _calculate_dipole_moment (a : atoms) : St world R :=
  let positions := get_positions a in
  let! charges := random_normal_n 0 0.1 (len a) in
  let dipole := vsum (zip_with vscale charges positions) in
  ret (vnorm dipole).

Definition _estimate_polarizability (a : atoms) : R :=
  let volume := _calculate_molecular_volume a in
  (0.1 * volume)%R.

Definition _estimate_binding_energy (a : atoms) : St world R :=
  let n_atoms := len a in
  let! x := random_normal 0 1.0 in
  ret (- 5.0 - 0.1 * INR n_atoms + x)%R.

(** [enumerate(zip(positions, symbols))] from index [i] on *)
Fixpoint binding_sites_from (i : nat) (ps : list (vec3 * string)) : list site :=
  match ps with
  | [] => []
  | (pos, sym) :: ps' =>
      if Py.contains sym ["O"; "N"; "S"]
      then mkSite i sym (vec_tolist pos) :: binding_sites_from (S i) ps'
      else binding_sites_from (S i) ps'
  end.

Definition _identify_binding_sites (a : atoms) : list site :=
  binding_sites_from 0 (zip (get_positions a) (get_chemical_symbols a)).

(** [sorted] on integers *)
Fixpoint insert_sorted (x : Z) (l : list Z) : list Z :=
  match l with
  | [] => [x]
  | y :: l' => if (x <=? y)%Z then x :: l else y :: insert_sorted x l'
  end.
Definition sorted (l : list Z) : list Z := fold_right insert_sorted [] l.

Definition _estimate_ir_frequencies (a : atoms) : list Z :=
  let symbols := get_chemical_symbols a in
  let frequencies := [] in
  let frequencies :=
    if Py.contains "O" symbols && Py.contains "H" symbols
    then frequencies ++ [3200; 3400]%Z else frequencies in
  let frequencies :=
    if Py.contains "C" symbols && Py.contains "O" symbols
    then frequencies ++ [1700]%Z else frequencies in
  let frequencies :=
    if Py.contains "C" symbols && Py.contains "H" symbols
    then frequencies ++ [2900; 3000]%Z else frequencies in
  sorted frequencies.

Definition _estimate_uv_vis (a : atoms) : R :=
  let n_pi_electrons :=
    length (List.filter (fun sym => Py.contains sym ["C"; "N"; "O"])
                        (get_chemical_symbols a)) in
  let lambda_max := (200 + 30 * sqrt (INR n_pi_electrons))%R in
  Rmin lambda_max 800.

(** [np.sqrt(np.mean(forces**2))] *)
Definition forces_rms (forces : list vec3) : R :=
  let squares := flat_map (fun f => map (fun x => (x * x)%R) (vec_tolist f)) forces in
  sqrt (Rsum squares / INR (length squares)).

(** *** The dictionary of properties *)

Definition dict : Type := list (string * pvalue).

(** [d[key] = v]: a key keeps its place, a new key goes last *)
Fixpoint dict_set (key : string) (v : pvalue) (d : dict) : dict :=
  match d with
  | [] => [(key, v)]
  | (k, v') :: d' =>
      if String.eqb key k then (k, v) :: d' else (k, v') :: dict_set key v d'
  end.

Fixpoint dict_get (key : string) (d : dict) : option pvalue :=
  match d with
  | [] => None
  | (k, v) :: d' => if String.eqb key k then Some v else dict_get key d'
  end.

(** Inside [calculate_properties] the local dictionary is part of the
    state: what was stored before an exception is still there after. *)
Definition lift {A} (m : St world A) : St (dict * world) A :=
  fun s => let '(r, w') := m (snd s) in (r, (fst s, w')).

Definition set_item (key : string) (v : pvalue) : St (dict * world) unit :=
  modify (fun s => (dict_set key v (fst s), snd s)).

Definition get_dict : St (dict * world) dict :=
  fun s => (Returns (fst s), s).

Definition with_dict {A} (init : dict) (m : St (dict * world) A) : St world A :=
  fun w => let '(r, s) := m (init, w) in (r, snd s).

(** the statements inside [try:] *)
Definition calculate_properties_body (self : analyzer) (complex_atoms : loc)
  : St (dict * world) unit :=
  let! a := lift (deref complex_atoms) in
  do! set_item "total_atoms" (PInt (len a)) in
  do! set_item "molecular_volume" (PFloat (_calculate_molecular_volume a)) in
  do! set_item "center_of_mass" (PList (vec_tolist (get_center_of_mass a))) in
  do! match fairchem_calc self with
      | Some c =>
          do! lift (set_calculator complex_atoms c) in
          let! a := lift (deref complex_atoms) in
          let! energy := of_result (get_potential_energy a) in
          do! set_item "total_energy" (PFloat energy) in
          let! forces := of_result (get_forces a) in
          set_item "forces_rms" (PFloat (forces_rms forces))
      | None => ret tt
      end in
  let! a := lift (deref complex_atoms) in
  let! gap := lift (_estimate_homo_lumo_gap a) in
  do! set_item "homo_lumo_gap" (PFloat gap) in
  let! dipole := lift (_calculate_dipole_moment a) in
  do! set_item "dipole_moment" (PFloat dipole) in
  do! set_item "polarizability" (PFloat (_estimate_polarizability a)) in
  let! binding := lift (_estimate_binding_energy a) in
  do! set_item "binding_energy" (PFloat binding) in
  do! set_item "binding_sites" (PSites (_identify_binding_sites a)) in
  do! set_item "ir_frequencies" (PFreqs (_estimate_ir_frequencies a)) in
  set_item "uv_vis_absorption" (PFloat (_estimate_uv_vis a)).

Definition calculate_properties (self : analyzer) (complex_atoms : loc)
  : St world dict :=
  with_dict []
    (do! try_except
           (calculate_properties_body self complex_atoms)
           (fun e =>
              do! lift (print ("Error calculating properties: " +:+ str e)) in
              set_item "error" (PStr (str e))) in
     get_dict).

(** ** Output *)

Definition nl : string := String "010"%char EmptyString.

(** [s * n] *)
Fixpoint repeat_str (s : string) (n : nat) : string :=
  match n with
  | O => EmptyString
  | S n' => s +:+ repeat_str s n'
  end.

(** Each [f.write] is one chunk; a coordinate row stands for the line
    [f"{symbol:2s} {pos[0]:12.6f} {pos[1]:12.6f} {pos[2]:12.6f}\n"].  The
    structure is read inside the [with] block, which has no effect of
    its own. *)
Definition save_gjf_file (atoms : loc) (filename : string) (title : string)
    (method basis : string) (charge multiplicity : Z) : St world unit :=
  let! a := deref atoms in
  write_file filename
    ([Text ("%nprocshared=4" +:+ nl);
      Text ("%mem=2GB" +:+ nl);
      Text ("# " +:+ method +:+ "/" +:+ basis +:+ " opt freq" +:+ nl +:+ nl);
      Text (title +:+ nl +:+ nl);
      Text (pretty charge +:+ " " +:+ pretty multiplicity +:+ nl)]
     ++ zip_with CoordRow (get_chemical_symbols a) (get_positions a)
     ++ [Text nl]).

(** A property row stands for the line [f"{key}: {value}\n"]. *)
Definition write_properties (filename : string) (properties : dict) : St world unit :=
  write_file filename
    ([Text ("Molecular Complex Properties" +:+ nl);
      Text (repeat_str "=" 40 +:+ nl +:+ nl)]
     ++ map (fun kv => PropRow (fst kv) (snd kv)) properties).

(** ** The pipeline *)

Definition analyze_complex (self : analyzer)
    (absorbent_file analyte_file output_prefix : string)
  : St world (loc * dict) :=
  do! print "Starting molecular complex analysis..." in
  (* Step 1: Parse input files *)
  do! print "1. Parsing input structures..." in
  let! absorbent := parse_gjf_file absorbent_file in
  let! analyte := parse_gjf_file analyte_file in
  let! n_abs := (let! a := deref absorbent in ret (len a)) in
  do! print ("   Absorbent: " +:+ pretty n_abs +:+ " atoms") in
  let! n_ana := (let! a := deref analyte in ret (len a)) in
  do! print ("   Analyte: " +:+ pretty n_ana +:+ " atoms") in
  (* Step 2: Optimize individual structures *)
  do! print "2. Optimizing individual structures..." in
  let! opt_absorbent := optimize_structure self absorbent 0.05 200 in
  let! opt_analyte := optimize_structure self analyte 0.05 200 in
  (* Step 3: Create initial complex *)
  do! print "3. Creating initial complex..." in
  let! initial_complex := create_complex opt_absorbent opt_analyte 3.0 in
  (* Step 4: Optimize complex *)
  do! print "4. Optimizing complex structure..." in
  let! final_complex := optimize_complex self initial_complex 0.05 300 in
  (* Step 5: Calculate properties *)
  do! print "5. Calculating molecular properties..." in
  let! properties := calculate_properties self final_complex in
  (* Step 6: Save results *)
  do! print "6. Saving results..." in
  let output_gjf := output_prefix +:+ "_optimized.gjf" in
  do! save_gjf_file final_complex output_gjf
        "Optimized Absorbent-Analyte Complex" "B3LYP" "6-31G(d)" 0 1 in
  let properties_file := output_prefix +:+ "_properties.txt" in
  do! write_properties properties_file properties in
  do! print ("Analysis complete! Results saved as " +:+ output_gjf
             +:+ " and " +:+ properties_file) in
  ret (final_complex, properties).

End Pipeline.

(** ** A concrete environment

    Small input files and stand-ins for the external code, on which the
    definitions above can be run. *)

Module Demo.

Definition line (s : string) : string := s +:+ nl.

(** carbon monoxide, with the usual header *)
Definition co_gjf : list string :=
  map line ["%mem=2GB"; "# B3LYP/6-31G(d) opt"; ""; "Carbon monoxide"; "";
            "0 1"; "C 0.0 0.0 0.0"; "O 0.0 0.0 1.128"; ""].

Definition water_gjf : list string :=
  map line ["%mem=2GB"; "# B3LYP/6-31G(d) opt"; ""; "Water analyte"; "";
            "0 1"; "O 0.0 0.0 0.119"; "H 0.0 0.757 -0.476";
            "H 0.0 -0.757 -0.476"; ""].

(** the second coordinate line has a field that is not a number *)
Definition malformed_gjf : list string :=
  map line ["0 1"; "C 0.0 0.0 0.0"; "H 1.0 abc 3.0"; ""].

(** a coordinate line whose first field is no element *)
Definition unknown_gjf : list string :=
  map line ["0 1"; "Xx 0.0 0.0 0.0"; ""].

(** a file without coordinates *)
Definition title_gjf : list string :=
  map line ["# B3LYP/6-31G(d) opt"; ""; "Only a title"; ""].

Definition hydrogen : Atoms unit :=
  mkAtoms ["H"; "H"] [(0, 0, 0); (0, 0, 0.74)]%R None.

(** the paths at which there is a file *)
Definition exists_file (path : string) : bool :=
  Py.contains path ["co.gjf"; "water.gjf"; "malformed.gjf"; "unknown.gjf";
                    "title.gjf"; "hydrogen.gjf"].

Definition no_such_file (path : string) : exn :=
  OSError ("[Errno 2] No such file or directory: '" +:+ path +:+ "'").

#[export] Instance externals : Externals := {|
  Calc := unit;
  Rng := nat;
  float := FloatLiteral.float;
  open_error := fun filepath =>
    if exists_file filepath then None else Some (no_such_file filepath);
  readlines := fun filepath =>
    if String.eqb filepath "co.gjf" then co_gjf
    else if String.eqb filepath "water.gjf" then water_gjf
    else if String.eqb filepath "malformed.gjf" then malformed_gjf
    else if String.eqb filepath "unknown.gjf" then unknown_gjf
    else if String.eqb filepath "title.gjf" then title_gjf
    else [];
  (* no file can be created in the directory [no_such_dir] *)
  write_error := fun filepath =>
    if String.prefix "no_such_dir/" filepath
    then Some (no_such_file filepath) else None;
  ase_read := fun filepath =>
    if String.eqb filepath "hydrogen.gjf" then Returns hydrogen
    else if exists_file filepath
    then Raises (Exception "not a Gaussian input file")
    else Raises (no_such_file filepath);
  (* the optimizer moves the atoms, and fails on more than three of them *)
  bfgs_run := fun a fmax steps =>
    let moved :=
      mkAtoms (symbols a) (map (fun p => vadd p (0.5, 0, 0)%R) (positions a)) (calc a) in
    (moved,
     if 4 <=? length (positions a)
     then Raises (Exception "optimizer stopped")
     else Returns 5);
  bfgs_trajectory := fun a fmax steps => true;
  object_id := fun l => l;
  known_symbol := fun symbol => Py.contains symbol ["H"; "C"; "N"; "O"; "S"; "P"];
  mass := fun symbol =>
    if String.eqb symbol "H" then 1%R
    else if String.eqb symbol "C" then 12%R
    else if String.eqb symbol "O" then 16%R
    else 1%R;
  atomic_number := fun symbol =>
    if String.eqb symbol "H" then 1%Z
    else if String.eqb symbol "C" then 6%Z
    else if String.eqb symbol "O" then 8%Z
    else 0%Z;
  normal := fun mu sigma g => (mu, S g);
  (* no energy for more than three atoms *)
  get_potential_energy := fun a =>
    if 4 <=? length (positions a)
    then Raises (Exception "energy not available")
    else Returns (- 1)%R;
  get_forces := fun a => Raises (Exception "forces not available")
|}.

Definition with_calculator : analyzer := mkAnalyzer (Some tt).
Definition without_calculator : analyzer := mkAnalyzer None.

(** a store with carbon monoxide at 0, water at 1, an empty structure
    at 2 and ammonia at 3 *)
Definition carbon_monoxide : atoms :=
  mkAtoms ["C"; "O"] [(0, 0, 0); (0, 0, 1.128)]%R None.
Definition water : atoms :=
  mkAtoms ["O"; "H"; "H"]
          [(0, 0, 0.119); (0, 0.757, - 0.476); (0, - 0.757, - 0.476)]%R None.
Definition no_atoms : atoms := mkAtoms [] [] None.
(** the elements of water in other numbers *)
Definition hydroxyl_like : atoms := mkAtoms ["H"; "O"; "O"] [] None.

Definition world0 : world := mkWorld [] [] [] 0.
Definition ammonia : atoms :=
  mkAtoms ["N"; "H"; "H"; "H"]
          [(0, 0, 0.116); (0, 0.939, - 0.271); (0.813, - 0.47, - 0.271);
           (- 0.813, - 0.47, - 0.271)]%R None.
Definition world1 : world :=
  mkWorld [carbon_monoxide; water; no_atoms; ammonia] [] [] 0.

End Demo.

(** ** The arithmetic of the code

    The volume estimate and the placement of the analyte once more, on
    values and with the arithmetic the code runs with: every operation
    on Python floats and NumPy float64 arrays is the IEEE binary64
    operation, rounded to nearest.  Sums are taken from the first
    element to the last; a structure of one atom involves no sum at
    all. *)

Set Warnings "-inexact-float".

Module Binary64.
Import PrimFloat.
Local Open Scope float_scope.

Definition vec3 : Type := float * float * float.

Definition vadd (p q : vec3) : vec3 :=
  let '(x1, y1, z1) := p in let '(x2, y2, z2) := q in
  (x1 + x2, y1 + y2, z1 + z2).
Definition vsub (p q : vec3) : vec3 :=
  let '(x1, y1, z1) := p in let '(x2, y2, z2) := q in
  (x1 - x2, y1 - y2, z1 - z2).
Definition vscale (k : float) (p : vec3) : vec3 :=
  let '(x, y, z) := p in (k * x, k * y, k * z).
Definition vdiv (p : vec3) (k : float) : vec3 :=
  let '(x, y, z) := p in (x / k, y / k, z / k).
Definition vec_z (p : vec3) : float := snd p.

(** the two arrays of an [ase.Atoms] object *)
Record Atoms : Type := mkAtoms {
  symbols : list string;
  positions : list vec3
}.

(** [x ** 3]: Python hands the operands to the C library's [pow].  It
    is modelled as the cube of [x] rounded once, which is the value
    [pow] returns for each radius of the table (the product
    [x * x * x], rounded twice, differs from it for [x = 1.2]). *)
Definition pow3 (x : float) : float :=
  match FloatOps.Prim2SF x with
  | SpecFloat.S754_finite s m e =>
      FloatOps.SF2Prim (SpecFloat.binary_round FloatOps.prec FloatOps.emax
                 s (m * m * m)%positive (3 * e)%Z)
  | _ => x * x * x
  end.

(** [np.pi] *)
Definition pi : float := 3.141592653589793.

Definition vdw_radii : list (string * float) :=
  [("H", 1.2); ("C", 1.7); ("N", 1.55); ("O", 1.52); ("S", 1.8); ("P", 1.8)].

Definition _calculate_molecular_volume (a : Atoms) : float :=
  fold_left
    (fun total_volume symbol =>
       let radius := dict_get_default vdw_radii symbol 1.5 in
       total_volume + 4 / 3 * pi * pow3 radius)
    (symbols a) 0.

Section Masses.
(** ASE's table of atomic masses *)
Variable mass : string -> float.

Definition get_masses (a : Atoms) : list float := map mass (symbols a).

(** [masses @ positions / masses.sum()] *)
Definition get_center_of_mass (a : Atoms) : vec3 :=
  vdiv (fold_left vadd (zip_with vscale (get_masses a) (positions a)) (0, 0, 0))
       (fold_left add (get_masses a) 0).

(** [analyte_copy] of [create_complex], after [translate] *)
Definition translated_analyte (absorbent analyte : Atoms)
    (separation_distance : float) : Atoms :=
  let abs_com := get_center_of_mass absorbent in
  let ana_com := get_center_of_mass analyte in
  let displacement := vsub (vadd (0, 0, separation_distance) abs_com) ana_com in
  mkAtoms (symbols analyte) (map (fun p => vadd p displacement) (positions analyte)).

Definition create_complex (absorbent analyte : Atoms)
    (separation_distance : float) : Atoms :=
  let analyte_copy := translated_analyte absorbent analyte separation_distance in
  mkAtoms (symbols absorbent ++ symbols analyte_copy)
          (positions absorbent ++ positions analyte_copy).

(** the atoms of a complex after those of the absorbent *)
Definition analyte_of (absorbent complex_atoms : Atoms) : Atoms :=
  mkAtoms (drop (length (symbols absorbent)) (symbols complex_atoms))
          (drop (length (positions absorbent)) (positions complex_atoms)).

(** whether, in the complex, the centre of mass of the analyte is
    [separation_distance] above that of the absorbent along z *)
Definition analyte_above (absorbent analyte : Atoms)
    (separation_distance : float) : bool :=
  let complex_atoms := create_complex absorbent analyte separation_distance in
  vec_z (get_center_of_mass (analyte_of absorbent complex_atoms))
  =? vec_z (get_center_of_mass absorbent) + separation_distance.

End Masses.

(** the masses ASE has for four elements *)
Definition ase_mass (symbol : string) : float :=
  if String.eqb symbol "H" then 1.008
  else if String.eqb symbol "C" then 12.011
  else if String.eqb symbol "N" then 14.007
  else if String.eqb symbol "O" then 15.999
  else nan.

(** *** Structures to run the definitions on *)

Definition hydrogen_atom : Atoms := mkAtoms ["H"] [(0, 0, 0)].
Definition carbon_atom : Atoms := mkAtoms ["C"] [(0, 0, 0)].
Definition carbon_monoxide : Atoms :=
  mkAtoms ["C"; "O"] [(0, 0, 0); (0, 0, 1.128)].
Definition water : Atoms :=
  mkAtoms ["O"; "H"; "H"]
          [(0, 0, 0.119); (0, 0.757, - 0.476); (0, - 0.757, - 0.476)].
Definition no_atoms : Atoms := mkAtoms [] [].

(** six atoms, and the same six with the third and fourth exchanged and
    at other places *)
Definition six_atoms : Atoms :=
  mkAtoms ["H"; "C"; "N"; "O"; "S"; "P"]
          [(0, 0, 0); (0, 0, 1); (0, 0, 2); (0, 0, 3); (0, 0, 4); (0, 0, 5)].
Definition six_atoms_reordered : Atoms :=
  mkAtoms ["H"; "C"; "O"; "N"; "S"; "P"]
          [(1, 0, 0); (1, 0, 1); (1, 0, 3); (1, 0, 2); (1, 0, 4); (1, 0, 5)].
Definition six_atoms_elsewhere : Atoms :=
  mkAtoms ["H"; "C"; "N"; "O"; "S"; "P"]
          [(1, 1, 0); (1, 1, 1); (1, 1, 2); (1, 1, 3); (1, 1, 4); (1, 1, 5)].

(** *** The specification's wording of the volume *)

Definition spec_vdw_radius (symbol : string) : float :=
  if String.eqb symbol "H" then 1.2
  else if String.eqb symbol "C" then 1.7
  else if String.eqb symbol "N" then 1.55
  else if String.eqb symbol "O" then 1.52
  else if String.eqb symbol "S" then 1.8
  else if String.eqb symbol "P" then 1.8
  else 1.5.

Definition spec_sphere_volume (r : float) : float := 4 / 3 * pi * pow3 r.

(** the sum of [f] over the atoms, taken from the first atom to the
    last, on top of [total] *)
Fixpoint spec_sum_in_order (f : string -> float) (total : float)
    (symbols : list string) : float :=
  match symbols with
  | [] => total
  | s :: rest => spec_sum_in_order f (total + f s) rest
  end.

End Binary64.

(** ** The specification's wording of the estimates *)

(** The table of van der Waals radii as the specification lists it. *)
Definition spec_vdw_radius (symbol : string) : R :=
  if String.eqb symbol "H" then 1.2
  else if String.eqb symbol "C" then 1.7
  else if String.eqb symbol "N" then 1.55
  else if String.eqb symbol "O" then 1.52
  else if String.eqb symbol "S" then 1.8
  else if String.eqb symbol "P" then 1.8
  else 1.5.

Definition spec_sphere_volume (r : R) : R := (4 / 3 * PI * r ^ 3)%R.

(** the sum of [f] over the atoms *)
Fixpoint spec_sum_over (f : string -> R) (symbols : list string) : R :=
  match symbols with
  | [] => 0
  | s :: rest => f s + spec_sum_over f rest
  end.

(** the number of atoms of one element *)
Fixpoint spec_count (element : string) (symbols : list string) : nat :=
  match symbols with
  | [] => 0
  | s :: rest =>
      (if String.eqb s element then 1 else 0) + spec_count element rest
  end.

(** ** The specification's wording of complex formation *)

Section ComplexWording.
Context {E : Externals}.

(** the displacement [create_complex] applies to the analyte *)
Definition complex_offset (A B : atoms) (separation_distance : R) : vec3 :=
  vsub (vadd (0, 0, separation_distance)%R (get_center_of_mass A))
       (get_center_of_mass B).

(** [C] is the complex of absorbent [A] and analyte [B]: the atoms of
    [A], then the atoms of [B], each moved by the offset. *)
Definition is_complex_of (A B : atoms) (separation_distance : R) (C : atoms) : Prop :=
  let offset := complex_offset A B separation_distance in
  len C = len A + len B
  /\ take (len A) (symbols C) = symbols A
  /\ take (len A) (positions C) = positions A
  /\ drop (len A) (symbols C) = symbols B
  /\ drop (len A) (positions C) = map (fun p => vadd p offset) (positions B).

End ComplexWording.

(** ** The specification's wording of the pipeline *)

Section PipelineWording.
Context {E : Externals}.

(** The first five steps of the specification, each started on the
    world the step before left (after the line that announces it) and
    fed with what the step before returned. *)
Inductive five_steps (self : analyzer)
    (absorbent_file analyte_file : string) (w0 : world)
  : loc -> dict -> world -> Prop :=
| five_steps_run
    (absorbent analyte opt_absorbent opt_analyte initial_complex final_complex : loc)
    (a_absorbent a_analyte : Atoms Calc) (properties : dict)
    (w1 w2 w3 w4 w5 w6 w7 : world) :
    (* 1: parse both input files *)
    parse_gjf_file absorbent_file
      (printed "1. Parsing input structures..."
         (printed "Starting molecular complex analysis..." w0))
    = (Returns absorbent, w1) ->
    parse_gjf_file analyte_file w1 = (Returns analyte, w2) ->
    heap w2 !! absorbent = Some a_absorbent ->
    heap w2 !! analyte = Some a_analyte ->
    (* 2: optimize each structure *)
    optimize_structure self absorbent 0.05 200
      (printed "2. Optimizing individual structures..."
         (printed ("   Analyte: " +:+ pretty (len a_analyte) +:+ " atoms")
            (printed ("   Absorbent: " +:+ pretty (len a_absorbent) +:+ " atoms") w2)))
    = (Returns opt_absorbent, w3) ->
    optimize_structure self analyte 0.05 200 w3 = (Returns opt_analyte, w4) ->
    (* 3: combine the optimized structures *)
    create_complex opt_absorbent opt_analyte 3.0
      (printed "3. Creating initial complex..." w4)
    = (Returns initial_complex, w5) ->
    (* 4: optimize the complex *)
    optimize_complex self initial_complex 0.05 300
      (printed "4. Optimizing complex structure..." w5)
    = (Returns final_complex, w6) ->
    (* 5: estimate the properties of the optimized complex *)
    calculate_properties self final_complex
      (printed "5. Calculating molecular properties..." w6)
    = (Returns properties, w7) ->
    five_steps self absorbent_file analyte_file w0 final_complex properties w7.


End PipelineWording.

(** ** Facts about the estimates *)

Section EstimateFacts.
Context {E : Externals}.

Lemma contains_In (x : string) (l : list string) :
  Py.contains x l = true <-> In x l.
Proof.
  unfold Py.contains. rewrite existsb_exists. split.
  - intros (y & Hy & Heq). apply String.eqb_eq in Heq. now subst.
  - intros H. exists x. split; [assumption | apply String.eqb_refl].
Qed.

Lemma contains_same_elements (x : string) (l1 l2 : list string) :
  (forall s, In s l1 <-> In s l2) -> Py.contains x l1 = Py.contains x l2.
Proof.
  intros H.
  destruct (Py.contains x l1) eqn:H1, (Py.contains x l2) eqn:H2; try reflexivity.
  - apply contains_In, H, contains_In in H1. congruence.
  - apply contains_In, H, contains_In in H2. congruence.
Qed.

Lemma dict_get_default_vdw (symbol : string) :
  dict_get_default vdw_radii symbol 1.5%R = spec_vdw_radius symbol.
Proof.
  unfold vdw_radii, spec_vdw_radius. simpl.
  repeat (destruct (String.eqb symbol _); [reflexivity |]). reflexivity.
Qed.

Lemma volume_fold_from (acc : R) (symbols : list string) :
  fold_left
    (fun total_volume symbol =>
       (total_volume + 4 / 3 * PI * dict_get_default vdw_radii symbol 1.5 ^ 3)%R)
    symbols acc
  = (acc + spec_sum_over (fun s => spec_sphere_volume (spec_vdw_radius s)) symbols)%R.
Proof.
  revert acc. induction symbols as [| s rest IH]; intros acc;
    cbn [fold_left spec_sum_over].
  - lra.
  - rewrite IH, dict_get_default_vdw. unfold spec_sphere_volume. lra.
Qed.

Lemma spec_sum_over_perm (f : string -> R) (l1 l2 : list string) :
  Permutation l1 l2 -> spec_sum_over f l1 = spec_sum_over f l2.
Proof.
  induction 1; simpl; lra.
Qed.

Lemma filter_length_count (l : list string) :
  length (List.filter (fun sym => Py.contains sym ["C"; "N"; "O"]) l)
  = spec_count "C" l + spec_count "N" l + spec_count "O" l.
Proof.
  induction l as [| s rest IH]; [reflexivity |].
  cbn [List.filter spec_count Py.contains existsb].
  destruct (String.eqb_spec s "C") as [-> | HC]; [cbn in *; lia |].
  destruct (String.eqb_spec s "N") as [-> | HN]; [cbn in *; lia |].
  destruct (String.eqb_spec s "O") as [-> | HO]; [cbn in *; lia |].
  cbn in *. exact IH.
Qed.

(** [sorted] sorts. *)
Lemma insert_sorted_In (x y : Z) (l : list Z) :
  In y (insert_sorted x l) <-> y = x \/ In y l.
Proof.
  induction l as [| z l IH]; simpl.
  - intuition.
  - destruct (x <=? z)%Z; simpl; [intuition |]. rewrite IH. intuition.
Qed.

Lemma insert_sorted_sorted (x : Z) (l : list Z) :
  StronglySorted Z.le l -> StronglySorted Z.le (insert_sorted x l).
Proof.
  induction 1 as [| z l Hs IH Hall]; simpl.
  - repeat constructor.
  - destruct (Z.leb_spec x z).
    + constructor; [constructor; assumption |].
      constructor; [assumption |].
      rewrite List.Forall_forall in *. intros y Hy. specialize (Hall y Hy). lia.
    + constructor; [assumption |].
      rewrite List.Forall_forall in *. intros y Hy.
      apply insert_sorted_In in Hy as [-> | Hy]; [lia | auto].
Qed.

Lemma sorted_sorted (l : list Z) : StronglySorted Z.le (sorted l).
Proof.
  induction l; simpl; [constructor | now apply insert_sorted_sorted].
Qed.

Lemma sorted_In (x : Z) (l : list Z) : In x (sorted l) <-> In x l.
Proof.
  induction l as [| y l IH]; simpl; [tauto |].
  rewrite insert_sorted_In, IH. intuition.
Qed.

(** In exact arithmetic the volume would be the sum over the atoms of
    the volume of a sphere of the element's van der Waals radius, in
    any order. *)
Lemma molecular_volume_exact_arithmetic (a b : atoms) :
  Permutation (get_chemical_symbols a) (get_chemical_symbols b) ->
  _calculate_molecular_volume a
  = spec_sum_over (fun s => spec_sphere_volume (spec_vdw_radius s))
                  (get_chemical_symbols a)
  /\ _calculate_molecular_volume b = _calculate_molecular_volume a.
Proof.
  intros Hperm. unfold _calculate_molecular_volume.
  rewrite !volume_fold_from. split; [lra |].
  rewrite (spec_sum_over_perm _ _ _ Hperm). reflexivity.
Qed.

(** C10: the UV-Vis estimate is [min(200 + 30 * sqrt n, 800)] for [n]
    the number of C, N and O atoms, and lies between 200 and 800. *)
Theorem uv_vis_between_200_and_800 (a : atoms) :
  let n := spec_count "C" (get_chemical_symbols a)
           + spec_count "N" (get_chemical_symbols a)
           + spec_count "O" (get_chemical_symbols a) in
  _estimate_uv_vis a = Rmin (200 + 30 * sqrt (INR n)) 800
  /\ (200 <= _estimate_uv_vis a <= 800)%R.
Proof.
  intros n. unfold _estimate_uv_vis. rewrite filter_length_count. fold n.
  split; [reflexivity |]. split.
  - apply Rmin_glb; [| lra]. pose proof (sqrt_pos (INR n)). lra.
  - apply Rmin_r.
Qed.

(** C5: the IR frequencies are a sorted list fixed by the set of
    elements present: 3200 and 3400 with O and H, 1700 with C and O,
    2900 and 3000 with C and H, nothing else; structures with the same
    set of elements get the same list. *)
Theorem ir_frequencies_by_element_presence (a b : atoms) :
  (forall s, In s (get_chemical_symbols a) <-> In s (get_chemical_symbols b)) ->
  let f := _estimate_ir_frequencies a in
  let present s := In s (get_chemical_symbols a) in
  _estimate_ir_frequencies b = f
  /\ StronglySorted Z.le f
  /\ (In 3200%Z f <-> present "O" /\ present "H")
  /\ (In 3400%Z f <-> present "O" /\ present "H")
  /\ (In 1700%Z f <-> present "C" /\ present "O")
  /\ (In 2900%Z f <-> present "C" /\ present "H")
  /\ (In 3000%Z f <-> present "C" /\ present "H")
  /\ (forall x, In x f ->
        x = 3200%Z \/ x = 3400%Z \/ x = 1700%Z \/ x = 2900%Z \/ x = 3000%Z).
Proof.
  intros Hsame f present. subst f present.
  split.
  { unfold _estimate_ir_frequencies.
    now rewrite !(contains_same_elements _ _ _ Hsame). }
  split; [apply sorted_sorted |].
  unfold _estimate_ir_frequencies.
  rewrite <- !contains_In.
  destruct (Py.contains "O" (get_chemical_symbols a)),
           (Py.contains "H" (get_chemical_symbols a)),
           (Py.contains "C" (get_chemical_symbols a));
    cbn; intuition (try discriminate; try lia; auto).
Qed.

End EstimateFacts.

(** ** The volume with the arithmetic of the code *)

Section VolumeArithmetic.
Import PrimFloat.
Local Open Scope float_scope.

Lemma dict_get_default_vdw64 (symbol : string) :
  dict_get_default Binary64.vdw_radii symbol 1.5 = Binary64.spec_vdw_radius symbol.
Proof.
  unfold Binary64.vdw_radii, Binary64.spec_vdw_radius. simpl.
  repeat (destruct (String.eqb symbol _); [reflexivity |]). reflexivity.
Qed.

Lemma volume64_from (total : float) (symbols : list string) :
  fold_left
    (fun total_volume symbol =>
       total_volume
       + 4 / 3 * Binary64.pi
         * Binary64.pow3 (dict_get_default Binary64.vdw_radii symbol 1.5))
    symbols total
  = Binary64.spec_sum_in_order
      (fun s => Binary64.spec_sphere_volume (Binary64.spec_vdw_radius s))
      total symbols.
Proof.
  revert total. induction symbols as [| s rest IH]; intros total;
    cbn [fold_left Binary64.spec_sum_in_order]; [reflexivity |].
  now rewrite IH, dict_get_default_vdw64.
Qed.

(** C4, amended: the molecular volume is the sum, taken in binary64 from
    the first atom to the last, of the volumes of spheres of the
    elements' van der Waals radii (1.5 for an element outside the
    table); it is the same for two structures with the same symbols in
    the same order, whatever their positions. *)
Theorem molecular_volume_sum_in_order (a b : Binary64.Atoms) :
  Binary64.symbols a = Binary64.symbols b ->
  Binary64._calculate_molecular_volume a
  = Binary64.spec_sum_in_order
      (fun s => Binary64.spec_sphere_volume (Binary64.spec_vdw_radius s))
      0 (Binary64.symbols a)
  /\ Binary64._calculate_molecular_volume b
     = Binary64._calculate_molecular_volume a.
Proof.
  intros Hsame. unfold Binary64._calculate_molecular_volume.
  rewrite <- Hsame. split; [apply volume64_from | reflexivity].
Qed.

(** The same six atoms at other places. *)
Lemma molecular_volume_sum_in_order_witness :
  Binary64._calculate_molecular_volume Binary64.six_atoms = 106.98456277395428
  /\ Binary64._calculate_molecular_volume Binary64.six_atoms_elsewhere
     = Binary64._calculate_molecular_volume Binary64.six_atoms.
Proof.
  destruct (molecular_volume_sum_in_order Binary64.six_atoms
              Binary64.six_atoms_elsewhere eq_refl) as [Hsum Hsame].
  split; [rewrite Hsum; vm_compute; reflexivity | exact Hsame].
Defined.

(** C4 as stated fails: the same six atoms with two of them exchanged
    have another volume, so the volume depends on more than the
    multiset of the symbols. *)
Lemma molecular_volume_depends_on_order :
  Permutation (Binary64.symbols Binary64.six_atoms)
              (Binary64.symbols Binary64.six_atoms_reordered)
  /\ Binary64._calculate_molecular_volume Binary64.six_atoms = 106.98456277395428
  /\ Binary64._calculate_molecular_volume Binary64.six_atoms_reordered
     = 106.9845627739543
  /\ Binary64._calculate_molecular_volume Binary64.six_atoms
     <> Binary64._calculate_molecular_volume Binary64.six_atoms_reordered.
Proof.
  split.
  { simpl. do 2 apply perm_skip. apply perm_swap. }
  split; [vm_compute; reflexivity |]. split; [vm_compute; reflexivity |].
  intros H.
  assert (Heq : (Binary64._calculate_molecular_volume Binary64.six_atoms
                 =? Binary64._calculate_molecular_volume Binary64.six_atoms_reordered)
                = true).
  { rewrite <- H. vm_compute. reflexivity. }
  vm_compute in Heq. discriminate.
Qed.

End VolumeArithmetic.

(** Water and a structure with the same elements in other numbers. *)
Lemma ir_frequencies_by_element_presence_witness :
  _estimate_ir_frequencies Demo.hydroxyl_like
  = _estimate_ir_frequencies Demo.water.
Proof.
  apply (ir_frequencies_by_element_presence Demo.water Demo.hydroxyl_like).
  intros s. simpl. tauto.
Defined.

(** ** Parsing *)

Section ParsingFacts.
Context {E : Externals}.

Lemma truthy_false {A} (l : list A) : Py.truthy l = false <-> l = [].
Proof. destruct l; simpl; split; congruence. Qed.

Lemma find_unknown_none (symbols : list string) :
  find (fun s => negb (known_symbol s)) symbols = None
  <-> forallb known_symbol symbols = true.
Proof.
  induction symbols as [| s rest IH]; simpl; [tauto |].
  destruct (known_symbol s); simpl; [exact IH | split; discriminate].
Qed.

(** The constructor accepts known symbols with as many positions, and
    nothing else. *)
Lemma Atoms_init_Returns (symbols : list string) (positions : list vec3)
    (a : atoms) :
  Atoms_init symbols positions = Returns a
  <-> forallb known_symbol symbols = true
      /\ length positions = length symbols
      /\ a = mkAtoms symbols positions None.
Proof.
  unfold Atoms_init. rewrite <- find_unknown_none.
  destruct (find _ symbols) as [s |].
  - split; [discriminate | intros [[=] _]].
  - destruct (Nat.eqb_spec (length positions) (length symbols)) as [Hlen | Hlen].
    + split; [intros [= <-]; auto | intros (_ & _ & ->); reflexivity].
    + split; [discriminate | intros (_ & Hl & _); contradiction].
Qed.

Lemma Atoms_init_well_formed (symbols : list string) (positions : list vec3)
    (a : atoms) :
  Atoms_init symbols positions = Returns a -> well_formed a.
Proof.
  intros H. apply Atoms_init_Returns in H as (_ & Hlen & ->).
  unfold well_formed. simpl. congruence.
Qed.

(** The constructor never raises the [ValueError] of the manual parser. *)
Lemma Atoms_init_other_error (symbols : list string) (positions : list vec3) :
  Atoms_init symbols positions
  <> Raises (ValueError "Could not parse coordinates from .gjf file").
Proof.
  unfold Atoms_init. destruct (find _ symbols); [discriminate |].
  destruct (length positions =? length symbols); discriminate.
Qed.

Lemma Atoms_new_runs (symbols : list string) (positions : list vec3) (w : world) :
  Atoms_new symbols positions w
  = match Atoms_init symbols positions with
    | Returns a => (Returns (length (heap w)), allocated a w)
    | Raises e => (Raises e, w)
    end.
Proof.
  unfold Atoms_new, bind, of_result.
  destruct (Atoms_init symbols positions); reflexivity.
Qed.

(** the structure the manual parser makes of the file at a path, or the
    exception it raises *)
Definition manual_outcome (filepath : string) : result atoms :=
  match open_error filepath with
  | Some e => Raises e
  | None =>
      let '(symbols, positions) := scan_lines (readlines filepath) in
      if Py.truthy symbols && Py.truthy positions
      then Atoms_init symbols positions
      else Raises (ValueError "Could not parse coordinates from .gjf file")
  end.

Lemma manual_gjf_parse_outcome (filepath : string) (w : world) :
  _manual_gjf_parse filepath w
  = match manual_outcome filepath with
    | Returns a => (Returns (length (heap w)), allocated a w)
    | Raises e => (Raises e, w)
    end.
Proof.
  unfold _manual_gjf_parse, manual_outcome.
  destruct (open_error filepath); [reflexivity |].
  destruct (scan_lines (readlines filepath)) as [ss ps].
  destruct (Py.truthy ss && Py.truthy ps); [apply Atoms_new_runs | reflexivity].
Qed.

(** the structure [parse_gjf_file] yields for a path: the reader's, or
    else the manual parser's *)
Definition parse_outcome (filepath : string) : result atoms :=
  match ase_read filepath with
  | Returns a => Returns a
  | Raises _ => manual_outcome filepath
  end.

(** the complaint about the reader, when it raised *)
Definition complaint (filepath : string) : list string :=
  match ase_read filepath with
  | Returns _ => []
  | Raises e => ["Error reading " +:+ filepath +:+ ": " +:+ str e]
  end.

(** the world after the complaint about the reader, if it failed *)
Definition complained (filepath : string) (w : world) : world :=
  match ase_read filepath with
  | Returns _ => w
  | Raises e => printed ("Error reading " +:+ filepath +:+ ": " +:+ str e) w
  end.

Lemma parse_gjf_file_outcome (filepath : string) (w : world) :
  parse_gjf_file filepath w
  = match parse_outcome filepath with
    | Returns a => (Returns (length (heap w)), allocated a (complained filepath w))
    | Raises e => (Raises e, complained filepath w)
    end.
Proof.
  unfold parse_gjf_file, parse_outcome, complained, try_except, bind, of_result.
  destruct (ase_read filepath) as [a | e]; [reflexivity |].
  cbn. rewrite manual_gjf_parse_outcome.
  destruct (manual_outcome filepath); reflexivity.
Qed.

Lemma written_complained (filepath : string) (w : world) :
  written (complained filepath w) = written w.
Proof. unfold complained. now destruct (ase_read filepath). Qed.

Lemma heap_complained (filepath : string) (w : world) :
  heap (complained filepath w) = heap w.
Proof. unfold complained. now destruct (ase_read filepath). Qed.

Lemma stdout_complained (filepath : string) (w : world) :
  stdout (complained filepath w) = stdout w ++ complaint filepath.
Proof.
  unfold complained, complaint.
  destruct (ase_read filepath); [now rewrite app_nil_r | reflexivity].
Qed.

(** C7, amended: [parse_gjf_file] returns what the external reader
    returns and runs the manual parser exactly when the reader raises.
    The manual parser passes on the exception of [open]; on a file it
    can open it raises its own [ValueError] exactly when the list of
    symbols or the list of positions it extracted is empty, and
    otherwise hands the two lists to the constructor [Atoms], whose
    exception it passes on and whose structure it returns, which is
    made of the two lists when every symbol is an element and there
    are as many positions as symbols.  [parse_gjf_file] raises only
    when both the reader and the manual parser do. *)
Theorem parse_gjf_file_falls_back_to_manual (filepath : string) (w : world) :
  let symbols := fst (scan_lines (readlines filepath)) in
  let positions := snd (scan_lines (readlines filepath)) in
  let could_not_parse := ValueError "Could not parse coordinates from .gjf file" in
  (forall a, ase_read filepath = Returns a ->
     parse_gjf_file filepath w = (Returns (length (heap w)), allocated a w))
  /\ (forall e, ase_read filepath = Raises e ->
        parse_gjf_file filepath w
        = _manual_gjf_parse filepath
            (printed ("Error reading " +:+ filepath +:+ ": " +:+ str e) w))
  /\ (forall e, open_error filepath = Some e ->
        _manual_gjf_parse filepath w = (Raises e, w))
  /\ (open_error filepath = None ->
        (fst (_manual_gjf_parse filepath w) = Raises could_not_parse
         <-> symbols = [] \/ positions = [])
        /\ (~ (symbols = [] \/ positions = []) ->
            _manual_gjf_parse filepath w = Atoms_new symbols positions w)
        /\ (~ (symbols = [] \/ positions = []) ->
            forallb known_symbol symbols = true ->
            length positions = length symbols ->
            _manual_gjf_parse filepath w
            = (Returns (length (heap w)),
               allocated (mkAtoms symbols positions None) w)))
  /\ (forall e, fst (parse_gjf_file filepath w) = Raises e ->
        (exists e', ase_read filepath = Raises e')
        /\ forall w', fst (_manual_gjf_parse filepath w') = Raises e).
Proof.
  intros symbols positions could_not_parse.
  assert (Hempty : Py.truthy symbols && Py.truthy positions = false
                   <-> symbols = [] \/ positions = []).
  { rewrite andb_false_iff, !truthy_false. reflexivity. }
  assert (Hopen : open_error filepath = None -> forall w',
    _manual_gjf_parse filepath w'
    = if Py.truthy symbols && Py.truthy positions
      then Atoms_new symbols positions w'
      else (Raises could_not_parse, w')).
  { intros Ho w'. unfold _manual_gjf_parse. rewrite Ho.
    subst symbols positions.
    destruct (scan_lines (readlines filepath)) as [ss ps]. simpl.
    destruct (Py.truthy ss && Py.truthy ps); reflexivity. }
  assert (Hread : forall e, ase_read filepath = Raises e ->
    parse_gjf_file filepath w
    = _manual_gjf_parse filepath
        (printed ("Error reading " +:+ filepath +:+ ": " +:+ str e) w)).
  { intros e He. unfold parse_gjf_file, try_except, bind, of_result.
    now rewrite He. }
  split; [| split; [exact Hread | split; [| split]]].
  - intros a Ha. unfold parse_gjf_file, try_except, bind, of_result.
    now rewrite Ha.
  - intros e He. unfold _manual_gjf_parse. now rewrite He.
  - intros Ho. split; [| split].
    + rewrite (Hopen Ho), <- Hempty.
      destruct (Py.truthy symbols && Py.truthy positions); simpl.
      * split; [| discriminate].
        rewrite Atoms_new_runs.
        pose proof (Atoms_init_other_error symbols positions) as Hne.
        destruct (Atoms_init symbols positions); [discriminate |].
        simpl. intros [= ->]. now contradict Hne.
      * split; reflexivity.
    + intros Hsome. rewrite (Hopen Ho). rewrite <- Hempty in Hsome.
      destruct (Py.truthy symbols && Py.truthy positions);
        [reflexivity | now contradict Hsome].
    + intros Hsome Hknown Hlen. rewrite (Hopen Ho). rewrite <- Hempty in Hsome.
      destruct (Py.truthy symbols && Py.truthy positions);
        [| now contradict Hsome].
      rewrite Atoms_new_runs.
      now rewrite (proj2 (Atoms_init_Returns symbols positions _)
                     (conj Hknown (conj Hlen eq_refl))).
  - intros e He.
    destruct (ase_read filepath) as [a | e'] eqn:Hr.
    + unfold parse_gjf_file, try_except, bind, of_result in He.
      rewrite Hr in He. discriminate.
    + split; [eauto |]. intros w'.
      rewrite (Hread e' eq_refl) in He.
      rewrite manual_gjf_parse_outcome in *.
      destruct (manual_outcome filepath); [discriminate | exact He].
Qed.

(** C1: every structure the manual parser returns has as many symbols
    as positions, whatever the lines of the file, and so has every
    structure [parse_gjf_file] returns, given that those of the external
    reader have. *)
Theorem parsed_structures_well_formed (filepath : string) (w w' : world)
    (l : loc) :
  (_manual_gjf_parse filepath w = (Returns l, w') ->
   exists a : atoms, heap w' !! l = Some a /\ well_formed a)
  /\ ((forall a, ase_read filepath = Returns a -> well_formed a) ->
      parse_gjf_file filepath w = (Returns l, w') ->
      exists a : atoms, heap w' !! l = Some a /\ well_formed a).
Proof.
  assert (Hmanual : forall w0 w1 l0,
    _manual_gjf_parse filepath w0 = (Returns l0, w1) ->
    exists a : atoms, heap w1 !! l0 = Some a /\ well_formed a).
  { intros w0 w1 l0. rewrite manual_gjf_parse_outcome. unfold manual_outcome.
    destruct (open_error filepath); [discriminate |].
    destruct (scan_lines (readlines filepath)) as [ss ps].
    destruct (Py.truthy ss && Py.truthy ps); [| discriminate].
    destruct (Atoms_init ss ps) as [a | e] eqn:Ha; [| discriminate].
    intros [= <- <-]. exists a.
    split; [now apply list_lookup_middle | now apply Atoms_init_well_formed in Ha]. }
  split; [apply Hmanual |].
  intros Hreader. unfold parse_gjf_file, try_except, bind, of_result.
  destruct (ase_read filepath) as [a | e] eqn:Hr.
  - intros [= <- <-]. exists a.
    split; [now apply list_lookup_middle | now apply Hreader].
  - cbn. apply Hmanual.
Qed.

End ParsingFacts.

(** The manual parser on the water file of the demonstration. *)
Example manual_parse_water :
  scan_lines (E := Demo.externals) Demo.water_gjf
  = (symbols Demo.water, positions Demo.water).
Proof.
  cbv -[Rplus Rmult Rinv Ropp Rdiv Rminus IZR FloatLiteral.to_R].
  unfold FloatLiteral.to_R; simpl.
  repeat (f_equal; try lra).
Qed.

Lemma manual_parse_water_run :
  _manual_gjf_parse (E := Demo.externals) "water.gjf" Demo.world0
  = (Returns 0, allocated Demo.water Demo.world0).
Proof.
  unfold _manual_gjf_parse.
  change (open_error "water.gjf") with (@None exn).
  change (readlines "water.gjf") with Demo.water_gjf.
  rewrite manual_parse_water. reflexivity.
Qed.

(** The lists the loop builds from the malformed file: the symbol of
    the malformed line is there, its position is not. *)
Lemma scan_lines_malformed :
  scan_lines (E := Demo.externals) Demo.malformed_gjf
  = (["C"; "H"], [(0, 0, 0)%R]).
Proof.
  cbv -[Rplus Rmult Rinv Ropp Rdiv Rminus IZR FloatLiteral.to_R].
  unfold FloatLiteral.to_R; simpl.
  repeat (f_equal; try lra).
Qed.

(** On the malformed file the constructor rejects the two lists: the
    manual parser raises, it returns no structure. *)
Lemma manual_parse_malformed_raises (w : @world Demo.externals) :
  _manual_gjf_parse "malformed.gjf" w
  = (Raises (ValueError ("Array " +:+ dq +:+ "positions" +:+ dq
                         +:+ " has wrong length: 1 != 2.")), w).
Proof.
  unfold _manual_gjf_parse.
  change (open_error "malformed.gjf") with (@None exn).
  change (readlines "malformed.gjf") with Demo.malformed_gjf.
  rewrite scan_lines_malformed. reflexivity.
Qed.

(** On a file without coordinate lines the manual parser raises its own
    [ValueError]. *)
Example manual_parse_title_raises (w : @world Demo.externals) :
  _manual_gjf_parse "title.gjf" w
  = (Raises (ValueError "Could not parse coordinates from .gjf file"), w).
Proof. reflexivity. Qed.

(** The water file, which the manual parser reads. *)
Lemma parsed_structures_well_formed_witness :
  exists a : @atoms Demo.externals,
    heap (allocated Demo.water Demo.world0) !! 0 = Some a /\ well_formed a.
Proof.
  apply (proj1 (parsed_structures_well_formed "water.gjf" Demo.world0 _ 0)).
  exact manual_parse_water_run.
Defined.

(** The lists the loop builds from the file with a symbol that is no
    element. *)
Lemma scan_lines_unknown :
  scan_lines (E := Demo.externals) Demo.unknown_gjf
  = (["Xx"], [(0, 0, 0)%R]).
Proof.
  cbv -[Rplus Rmult Rinv Ropp Rdiv Rminus IZR FloatLiteral.to_R].
  unfold FloatLiteral.to_R; simpl.
  repeat (f_equal; try lra).
Qed.

(** C7 as stated fails on a file that can be opened and has one
    coordinate line, whose first field is no element: neither list is
    empty, and the manual parser raises, a [KeyError]; it returns no
    structure built from the two lists. *)
Lemma manual_parse_unknown_symbol_raises :
  open_error (Externals := Demo.externals) "unknown.gjf" = None
  /\ scan_lines (E := Demo.externals) (@readlines Demo.externals "unknown.gjf")
     = (["Xx"], [(0, 0, 0)%R])
  /\ forall w : @world Demo.externals,
       _manual_gjf_parse "unknown.gjf" w = (Raises (KeyError "Xx"), w).
Proof.
  split; [reflexivity |]. split; [exact scan_lines_unknown |].
  intros w. unfold _manual_gjf_parse.
  change (open_error "unknown.gjf") with (@None exn).
  change (readlines "unknown.gjf") with Demo.unknown_gjf.
  rewrite scan_lines_unknown. reflexivity.
Qed.


(** ** The object store, complex formation *)

Section StoreFacts.
Context {E : Externals}.

Lemma deref_Some (w : world) (l : loc) (a : atoms) :
  heap w !! l = Some a -> deref l w = (Returns a, w).
Proof. intros H. unfold deref. now rewrite H. Qed.

Lemma update_Some (w : world) (l : loc) (a : atoms) (f : atoms -> atoms) :
  heap w !! l = Some a ->
  update l f w = (Returns tt, set_heap (<[l := f a]> (heap w)) w).
Proof. intros H. unfold update. now rewrite H. Qed.

Lemma copy_Some (w : world) (l : loc) (a : atoms) :
  heap w !! l = Some a ->
  copy l w = (Returns (length (heap w)), allocated (copy_of a) w).
Proof. intros H. unfold copy, bind. now rewrite (deref_Some _ _ _ H). Qed.

Lemma heap_allocated (a : atoms) (w : world) :
  heap (allocated a w) = heap w ++ [a].
Proof. reflexivity. Qed.

Lemma lookup_old (h : list atoms) (extra : list atoms) (l : loc) (a : atoms) :
  h !! l = Some a -> (h ++ extra) !! l = Some a.
Proof. intros H. now apply lookup_app_l_Some. Qed.

Lemma lookup_new (h : list atoms) (a : atoms) (extra : list atoms) :
  (h ++ a :: extra) !! length h = Some a.
Proof. now rewrite list_lookup_middle. Qed.

Lemma insert_new (h : list atoms) (a b : atoms) (extra : list atoms) :
  <[length h := b]> (h ++ a :: extra) = h ++ b :: extra.
Proof.
  rewrite insert_app_r_alt by lia. now rewrite Nat.sub_diag.
Qed.

Lemma add_runs (w : world) (l1 l2 : loc) (a b : atoms) :
  heap w !! l1 = Some a ->
  heap w !! l2 = Some b ->
  add l1 l2 w
  = (Returns (length (heap w)), allocated (extended b (copy_of a)) w).
Proof.
  intros H1 H2. unfold add, bind, ret.
  rewrite (copy_Some _ _ _ H1).
  rewrite (deref_Some _ l2 b) by (now apply lookup_old).
  rewrite (update_Some _ _ (copy_of a)) by apply lookup_new.
  unfold allocated. cbn [heap set_heap]. rewrite insert_new. reflexivity.
Qed.

Lemma create_complex_runs (w : world) (absorbent analyte : loc) (A B : atoms)
    (separation_distance : R) :
  heap w !! absorbent = Some A ->
  heap w !! analyte = Some B ->
  let moved := translated (complex_offset A B separation_distance) (copy_of B) in
  create_complex absorbent analyte separation_distance w
  = (Returns (S (length (heap w))),
     set_heap (heap w ++ [moved; extended moved (copy_of A)]) w).
Proof.
  intros HA HB moved.
  unfold create_complex, bind, ret.
  rewrite (deref_Some _ _ _ HA), (deref_Some _ _ _ HB), (copy_Some _ _ _ HB).
  unfold translate.
  rewrite (update_Some _ _ (copy_of B)) by (rewrite heap_allocated; apply lookup_new).
  unfold allocated at 1 2. cbn [heap set_heap]. rewrite insert_new.
  fold (complex_offset A B separation_distance). fold moved.
  rewrite (add_runs _ _ _ A moved).
  - unfold allocated. cbn [heap set_heap]. rewrite length_app, <- app_assoc.
    cbn [length app]. now rewrite Nat.add_1_r.
  - now apply lookup_old.
  - apply lookup_new.
Qed.

Lemma Rsum_from (l : list R) (acc : R) :
  fold_left Rplus l acc = (acc + Rsum l)%R.
Proof.
  unfold Rsum. revert acc. induction l as [| x l IH]; intros acc; simpl.
  - lra.
  - rewrite IH, (IH (0 + x)%R). lra.
Qed.

Lemma weighted_sum_translated (d : vec3) (ms : list R) :
  forall (ps : list vec3) (acc : vec3) (k : R),
    length ms = length ps ->
    fold_left vadd (zip_with vscale ms (map (fun p => vadd p d) ps))
              (vadd acc (vscale k d))
    = vadd (fold_left vadd (zip_with vscale ms ps) acc)
           (vscale (fold_left Rplus ms k) d).
Proof.
  induction ms as [| m ms IH]; intros [| p ps] acc k Hlen;
    try discriminate; [reflexivity |].
  cbn [map zip_with fold_left].
  replace (vadd (vadd acc (vscale k d)) (vscale m (vadd p d)))
    with (vadd (vadd acc (vscale m p)) (vscale (k + m) d)).
  - apply IH. now injection Hlen.
  - destruct acc as [[? ?] ?], d as [[? ?] ?], p as [[? ?] ?]. simpl.
    f_equal; [f_equal |]; ring.
Qed.

Lemma center_of_mass_translated (d : vec3) (a : atoms) :
  well_formed a ->
  Rsum (get_masses a) <> 0%R ->
  get_center_of_mass (translated d a) = vadd (get_center_of_mass a) d.
Proof.
  intros Hwf Hmass. unfold get_center_of_mass, vsum, get_masses.
  cbn [translated symbols positions].
  replace vzero with (vadd vzero (vscale 0 d)) at 1
    by (destruct d as [[? ?] ?]; unfold vzero; simpl; f_equal; [f_equal |]; ring).
  rewrite weighted_sum_translated
    by (rewrite length_map; exact Hwf).
  fold (Rsum (map mass (symbols a))).
  unfold get_masses in Hmass.
  destruct (fold_left vadd (zip_with vscale (map mass (symbols a)) (positions a)) vzero)
    as [[sx sy] sz], d as [[dx dy] dz].
  simpl. f_equal; [f_equal |]; field; exact Hmass.
Qed.

Lemma lookup_second_new (h : list atoms) (a b : atoms) :
  (h ++ [a; b]) !! S (length h) = Some b.
Proof.
  rewrite lookup_app_r by lia.
  now replace (S (length h) - length h) with 1 by lia.
Qed.

(** In exact arithmetic, and for an analyte of mass other than zero,
    the centre of mass of the moved analyte would be
    [separation_distance] above that of the absorbent. *)
Lemma moved_analyte_exact_arithmetic (A B : atoms) (separation_distance : R) :
  well_formed B ->
  Rsum (get_masses B) <> 0%R ->
  get_center_of_mass
    (translated (complex_offset A B separation_distance) (copy_of B))
  = vadd (get_center_of_mass A) (0, 0, separation_distance)%R.
Proof.
  intros HwfB HmB.
  rewrite center_of_mass_translated by assumption.
  change (get_center_of_mass (copy_of B)) with (get_center_of_mass B).
  unfold complex_offset.
  destruct (get_center_of_mass A) as [[? ?] ?], (get_center_of_mass B) as [[? ?] ?].
  simpl. f_equal; [f_equal |]; ring.
Qed.

(** C2, amended: [create_complex] returns a new structure, the atoms of
    the absorbent followed by the atoms of the analyte, each moved by
    the one offset [(0, 0, d) + com(absorbent) - com(analyte)]. *)
Theorem create_complex_appends_moved_analyte (w : world) (absorbent analyte : loc)
    (A B : atoms) (separation_distance : R) :
  heap w !! absorbent = Some A ->
  heap w !! analyte = Some B ->
  well_formed A ->
  exists (c : loc) (w' : world) (C : atoms),
    create_complex absorbent analyte separation_distance w = (Returns c, w')
    /\ heap w' !! c = Some C
    /\ is_complex_of A B separation_distance C.
Proof.
  intros HA HB HwfA.
  eexists _, _, _. split; [apply (create_complex_runs _ _ _ _ _ _ HA HB) |].
  split; [apply lookup_second_new |].
  unfold is_complex_of, len, well_formed in *.
  cbn [extended translated copy_of symbols positions].
  rewrite length_app, length_map, take_app_length, drop_app_length.
  rewrite <- HwfA, take_app_length, drop_app_length.
  repeat split.
Qed.

(** C8: [create_complex] changes no object that existed before the
    call, in particular neither input; the structure it translates and
    the structure it returns are new objects. *)
Theorem create_complex_leaves_inputs_unchanged (w : world)
    (absorbent analyte : loc) (A B : atoms) (separation_distance : R) :
  heap w !! absorbent = Some A ->
  heap w !! analyte = Some B ->
  exists (c : loc) (w' : world),
    create_complex absorbent analyte separation_distance w = (Returns c, w')
    /\ heap w' !! absorbent = Some A
    /\ heap w' !! analyte = Some B
    /\ (forall l a, heap w !! l = Some a -> heap w' !! l = Some a)
    /\ heap w !! length (heap w) = None
    /\ heap w' !! length (heap w)
       = Some (translated (complex_offset A B separation_distance) (copy_of B))
    /\ heap w !! c = None
    /\ c <> length (heap w).
Proof.
  intros HA HB.
  eexists _, _. split; [apply (create_complex_runs _ _ _ _ _ _ HA HB) |].
  cbn [heap set_heap].
  split; [now apply lookup_old |]. split; [now apply lookup_old |].
  split; [intros l a Hl; now apply lookup_old |].
  split; [apply lookup_ge_None_2; lia |].
  split; [apply lookup_new |].
  split; [apply lookup_ge_None_2; lia | lia].
Qed.
End StoreFacts.

(** Carbon monoxide and water of the demonstration. *)
Lemma create_complex_appends_moved_analyte_witness :
  exists (c : loc) (w' : @world Demo.externals) (C : atoms),
    create_complex 0 1 3 Demo.world1 = (Returns c, w')
    /\ heap w' !! c = Some C
    /\ is_complex_of Demo.carbon_monoxide Demo.water 3 C.
Proof.
  apply (create_complex_appends_moved_analyte Demo.world1 0 1
           Demo.carbon_monoxide Demo.water 3); reflexivity.
Defined.

Lemma create_complex_leaves_inputs_unchanged_witness :
  exists (c : loc) (w' : @world Demo.externals),
    create_complex 0 1 3 Demo.world1 = (Returns c, w')
    /\ heap w' !! 0 = Some Demo.carbon_monoxide
    /\ heap w' !! 1 = Some Demo.water.
Proof.
  destruct (create_complex_leaves_inputs_unchanged Demo.world1 0 1
              Demo.carbon_monoxide Demo.water 3 eq_refl eq_refl)
    as (c & w' & Hrun & H0 & H1 & _).
  exists c, w'. repeat split; assumption.
Defined.

(** ** The placement of the analyte with the arithmetic of the code *)

Section ComplexArithmetic.
Import PrimFloat.
Local Open Scope float_scope.

(** C2 as stated fails: in the complex, the centre of mass of the
    analyte is not the separation above that of the absorbent.  For a
    carbon atom placed 3 above a hydrogen atom, both at the origin, the
    carbon atom is put at height 3 and its centre of mass is
    [12.011 * 3.0 / 12.011], which is not 3; for water above carbon
    monoxide the difference of the two heights is not 3 either; for an
    analyte without atoms the centre of mass is not a number. *)
Lemma create_complex_center_of_mass_rounds :
  let com := Binary64.get_center_of_mass Binary64.ase_mass in
  let complex_of := Binary64.create_complex Binary64.ase_mass in
  complex_of Binary64.hydrogen_atom Binary64.carbon_atom 3
  = Binary64.mkAtoms ["H"; "C"] [(0, 0, 0); (0, 0, 3)]
  /\ com Binary64.hydrogen_atom = (0, 0, 0)
  /\ com (Binary64.analyte_of Binary64.hydrogen_atom
            (complex_of Binary64.hydrogen_atom Binary64.carbon_atom 3))
     = (0, 0, 3.0000000000000004)
  /\ Binary64.analyte_above Binary64.ase_mass
       Binary64.hydrogen_atom Binary64.carbon_atom 3 = false
  /\ Binary64.vec_z
       (com (Binary64.analyte_of Binary64.carbon_monoxide
               (complex_of Binary64.carbon_monoxide Binary64.water 3)))
     - Binary64.vec_z (com Binary64.carbon_monoxide)
     = 3.0000000000000004
  /\ Binary64.analyte_above Binary64.ase_mass
       Binary64.carbon_monoxide Binary64.water 3 = false
  /\ is_nan (Binary64.vec_z
               (com (Binary64.analyte_of Binary64.carbon_monoxide
                       (complex_of Binary64.carbon_monoxide Binary64.no_atoms 3))))
     = true
  /\ Binary64.analyte_above Binary64.ase_mass
       Binary64.carbon_monoxide Binary64.no_atoms 3 = false.
Proof. cbv zeta. repeat split; vm_compute; reflexivity. Qed.

End ComplexArithmetic.

(** ** Optimization *)

Section OptimizeFacts.
Context {E : Externals}.

Lemma optimize_structure_without_calculator (self : analyzer) (atoms : loc)
    (fmax : R) (steps : nat) (w : world) :
  fairchem_calc self = None ->
  optimize_structure self atoms fmax steps w
  = (Returns atoms,
     printed "FairChem calculator not available, returning original structure" w).
Proof. intros H. unfold optimize_structure. now rewrite H. Qed.

(** the trajectory file the optimizer is asked for *)
Definition trajectory_of (atoms : loc) : string * list chunk :=
  ("optimization_" +:+ pretty (object_id atoms) +:+ ".traj", [Trajectory]).

Lemma optimize_structure_runs (self : analyzer) (atoms : loc) (fmax : R)
    (steps : nat) (w : world) (c : Calc) (A : Atoms Calc) :
  fairchem_calc self = Some c ->
  heap w !! atoms = Some A ->
  let a := with_calculator c (copy_of A) in
  let outcome := bfgs_run a fmax steps in
  let files := if bfgs_trajectory a fmax steps then [trajectory_of atoms] else [] in
  let w' := mkWorld (heap w ++ [fst outcome]) (stdout w) (written w ++ files) (rng w) in
  optimize_structure self atoms fmax steps w
  = match snd outcome with
    | Returns n =>
        (Returns (length (heap w)),
         printed ("Optimization completed in " +:+ pretty n +:+ " steps") w')
    | Raises e =>
        (Returns atoms, printed ("Optimization failed: " +:+ str e) w')
    end.
Proof.
  intros Hc HA a outcome files w'. unfold optimize_structure. rewrite Hc.
  unfold try_except, bind, ret.
  rewrite (copy_Some _ _ _ HA). unfold set_calculator.
  rewrite (update_Some _ _ (copy_of A)) by apply lookup_new.
  unfold allocated. cbn [heap set_heap]. rewrite insert_new.
  unfold run_bfgs, bind.
  rewrite (deref_Some _ _ (with_calculator c (copy_of A))) by apply lookup_new.
  fold a. fold outcome. subst w' files. destruct outcome as [a' r] eqn:Ho.
  unfold bind.
  rewrite (update_Some _ _ a) by apply lookup_new.
  cbn [heap set_heap]. rewrite insert_new. cbn [fst snd].
  unfold trajectory_of, set_heap, with_file, modify, ret, of_result, printed.
  destruct (bfgs_trajectory a fmax steps), r; cbn; rewrite ?app_nil_r; reflexivity.
Qed.

(** C9: [optimize_structure] always returns, and leaves the structure
    it is given (and every other existing object) as it was.  Without a
    calculator, or when the optimization raises, it returns the
    reference it was given; when the optimization succeeds it returns a
    new object, the copy that the optimizer moved. *)
Theorem optimize_structure_atomic_on_failure (self : analyzer) (atoms : loc)
    (fmax : R) (steps : nat) (w : world) (A : Atoms Calc) :
  heap w !! atoms = Some A ->
  exists (l : loc) (w' : world),
    optimize_structure self atoms fmax steps w = (Returns l, w')
    /\ heap w' !! atoms = Some A
    /\ (forall l0 a, heap w !! l0 = Some a -> heap w' !! l0 = Some a)
    /\ (fairchem_calc self = None -> l = atoms)
    /\ (forall c e,
          fairchem_calc self = Some c ->
          snd (bfgs_run (with_calculator c (copy_of A)) fmax steps) = Raises e ->
          l = atoms)
    /\ (forall c n,
          fairchem_calc self = Some c ->
          snd (bfgs_run (with_calculator c (copy_of A)) fmax steps) = Returns n ->
          l = length (heap w)
          /\ heap w !! l = None
          /\ heap w' !! l
             = Some (fst (bfgs_run (with_calculator c (copy_of A)) fmax steps))).
Proof.
  intros HA. destruct (fairchem_calc self) as [c |] eqn:Hc.
  - pose proof (optimize_structure_runs self atoms fmax steps w c A Hc HA) as Hrun.
    cbv zeta in Hrun.
    destruct (snd (bfgs_run (with_calculator c (copy_of A)) fmax steps))
      as [n | e] eqn:Hr;
      eexists _, _; (split; [exact Hrun |]); cbn [heap printed set_heap];
      (split; [now apply lookup_old |]);
      (split; [intros l0 a Hl; now apply lookup_old |]);
      (split; [discriminate |]); split.
    + intros c' e [= <-] He. congruence.
    + intros c' n' [= <-] Hn. 
      split; [reflexivity |]. split; [apply lookup_ge_None_2; lia |].
      apply lookup_new.
    + reflexivity.
    + intros c' n' [= <-] Hn. congruence.
  - eexists _, _.
    split; [now apply optimize_structure_without_calculator |].
    cbn [heap printed].
    split; [assumption |]. split; [auto |]. split; [reflexivity |].
    split; intros; discriminate.
Qed.
End OptimizeFacts.

(** The optimizer of the demonstration fails on the four atoms of
    ammonia after it has moved them: the caller gets its own structure
    back, unmoved. *)
Lemma optimize_structure_atomic_on_failure_witness :
  exists (l : loc) (w' : @world Demo.externals),
    optimize_structure Demo.with_calculator 3 0.05 200 Demo.world1 = (Returns l, w')
    /\ l = 3
    /\ heap w' !! 3 = Some Demo.ammonia.
Proof.
  destruct (optimize_structure_atomic_on_failure Demo.with_calculator 3 0.05 200
              Demo.world1 Demo.ammonia eq_refl)
    as (l & w' & Hrun & Hsame & _ & _ & Hfail & _).
  exists l, w'. split; [exact Hrun |]. split; [| exact Hsame].
  apply (Hfail tt (Exception "optimizer stopped")); reflexivity.
Defined.

(** ** Property calculation *)

Section PropertyFacts.
Context {E : Externals}.

Lemma dict_get_set_same (key : string) (v : pvalue) (d : dict) :
  dict_get key (dict_set key v d) = Some v.
Proof.
  induction d as [| [k v'] d IH]; simpl.
  - now rewrite String.eqb_refl.
  - destruct (String.eqb key k) eqn:Hk; simpl; now rewrite Hk.
Qed.

Lemma dict_get_set_other (key key' : string) (v : pvalue) (d : dict) :
  key' <> key -> dict_get key' (dict_set key v d) = dict_get key' d.
Proof.
  intros Hne. induction d as [| [k v'] d IH]; simpl.
  - apply String.eqb_neq in Hne. now rewrite Hne.
  - destruct (String.eqb_spec key k) as [-> | Hk]; simpl.
    + apply String.eqb_neq in Hne. now rewrite Hne.
    + now rewrite IH.
Qed.

Lemma calculate_properties_runs (self : analyzer) (complex_atoms : loc) (w : world) :
  calculate_properties self complex_atoms w
  = match calculate_properties_body self complex_atoms ([], w) with
    | (Returns _, (properties, w')) => (Returns properties, w')
    | (Raises e, (properties, w')) =>
        (Returns (dict_set "error" (PStr (str e)) properties),
         printed ("Error calculating properties: " +:+ str e) w')
    end.
Proof.
  unfold calculate_properties, with_dict, bind, try_except.
  destruct (calculate_properties_body _ _ _) as [[[] | e] [properties w']];
    reflexivity.
Qed.

Lemma body_energy_fails (self : analyzer) (complex_atoms : loc) (w : world)
    (c : Calc) (a : atoms) (e : exn) :
  fairchem_calc self = Some c ->
  heap w !! complex_atoms = Some a ->
  get_potential_energy (with_calculator c a) = Raises e ->
  calculate_properties_body self complex_atoms ([], w)
  = (Raises e,
     ([("total_atoms", PInt (len a));
       ("molecular_volume", PFloat (_calculate_molecular_volume a));
       ("center_of_mass", PList (vec_tolist (get_center_of_mass a)))],
      set_heap (<[complex_atoms := with_calculator c a]> (heap w)) w)).
Proof.
  intros Hc Ha He. unfold calculate_properties_body. rewrite Hc.
  unfold bind, lift, set_item, modify. cbn [fst snd].
  rewrite (deref_Some _ _ _ Ha). cbn [fst snd dict_set String.eqb].
  unfold set_calculator. rewrite (update_Some _ _ _ _ Ha). cbn [fst snd].
  rewrite (deref_Some _ _ (with_calculator c a)).
  2:{ cbn [heap set_heap]. apply list_lookup_insert_eq.
      now apply lookup_lt_Some in Ha. }
  unfold of_result. rewrite He. reflexivity.
Qed.


(** C6: [calculate_properties] always returns a dictionary.  When a
    computation inside raises, the dictionary is what had been stored
    until then, with the message of the exception under ["error"]; for
    instance, when the energy cannot be computed, it holds the three
    geometric entries and the error. *)
Theorem calculate_properties_never_raises (self : analyzer)
    (complex_atoms : loc) (w : world) :
  exists (properties : dict) (w' : world),
    calculate_properties self complex_atoms w = (Returns properties, w')
    /\ (forall e partial w0,
          calculate_properties_body self complex_atoms ([], w)
          = (Raises e, (partial, w0)) ->
          properties = dict_set "error" (PStr (str e)) partial
          /\ dict_get "error" properties = Some (PStr (str e))
          /\ forall key, key <> "error" ->
               dict_get key properties = dict_get key partial)
    /\ (forall c a e,
          fairchem_calc self = Some c ->
          heap w !! complex_atoms = Some a ->
          get_potential_energy (with_calculator c a) = Raises e ->
          properties
          = [("total_atoms", PInt (len a));
             ("molecular_volume", PFloat (_calculate_molecular_volume a));
             ("center_of_mass", PList (vec_tolist (get_center_of_mass a)));
             ("error", PStr (str e))]).
Proof.
  rewrite calculate_properties_runs.
  destruct (calculate_properties_body self complex_atoms ([], w))
    as [[[] | e] [partial w0]] eqn:Hbody.
  - exists partial, w0. split; [reflexivity |]. split.
    + intros e partial' w0' [=].
    + intros c a e Hc Ha He.
      rewrite (body_energy_fails _ _ _ _ _ _ Hc Ha He) in Hbody. discriminate.
  - eexists _, _. split; [reflexivity |]. split.
    + intros e' partial' w0' [= <- <- <-]. split; [reflexivity |].
      split; [apply dict_get_set_same |].
      intros key Hkey. now apply dict_get_set_other.
    + intros c a e' Hc Ha He.
      rewrite (body_energy_fails _ _ _ _ _ _ Hc Ha He) in Hbody.
      injection Hbody as <- <- <-. reflexivity.
Qed.
End PropertyFacts.


(** The calculator of the demonstration has no energy for ammonia. *)
Lemma calculate_properties_never_raises_witness :
  exists (properties : dict) (w' : @world Demo.externals),
    calculate_properties Demo.with_calculator 3 Demo.world1 = (Returns properties, w')
    /\ properties
       = [("total_atoms", PInt 4);
          ("molecular_volume", PFloat (_calculate_molecular_volume Demo.ammonia));
          ("center_of_mass", PList (vec_tolist (get_center_of_mass Demo.ammonia)));
          ("error", PStr "energy not available")].
Proof.
  destruct (calculate_properties_never_raises Demo.with_calculator 3 Demo.world1)
    as (properties & w' & Hrun & _ & Henergy).
  exists properties, w'. split; [exact Hrun |].
  apply (Henergy tt Demo.ammonia (Exception "energy not available"));
    reflexivity.
Defined.

(** ** Invariants of computations *)

(** [I] holds of the state a computation leaves, returning or raising,
    when it held of the state it started in. *)
Definition invariant {S A} (I : S -> Prop) (m : St S A) : Prop :=
  forall s, I s -> I (snd (m s)).

Section Invariants.
Context {E : Externals}.

(** a property of the world, and one of the local dictionary, as
    properties of the state inside [calculate_properties] *)
Definition on_world (I : world -> Prop) (s : dict * world) : Prop := I (snd s).
Definition on_dict (J : dict -> Prop) (s : dict * world) : Prop := J (fst s).

(** the world with another state of the random generator *)
Definition with_rng (g : Rng) (w : world) : world :=
  mkWorld (heap w) (stdout w) (written w) g.

Lemma inv_ret {S A} (I : S -> Prop) (a : A) : invariant I (ret a).
Proof. intros s H. exact H. Qed.

Lemma inv_raise {S A} (I : S -> Prop) (e : exn) : invariant I (@raise S A e).
Proof. intros s H. exact H. Qed.

Lemma inv_of_result {S A} (I : S -> Prop) (r : result A) :
  invariant I (of_result r).
Proof. intros s H. exact H. Qed.

Lemma inv_bind {S A B} (I : S -> Prop) (m : St S A) (k : A -> St S B) :
  invariant I m -> (forall a, invariant I (k a)) -> invariant I (bind m k).
Proof.
  intros Hm Hk s Hs. unfold bind. specialize (Hm s Hs).
  destruct (m s) as [[a | e] s']; simpl in *; [| assumption].
  now apply Hk.
Qed.

Lemma inv_try_except {S A} (I : S -> Prop) (m : St S A) (h : exn -> St S A) :
  invariant I m -> (forall e, invariant I (h e)) -> invariant I (try_except m h).
Proof.
  intros Hm Hh s Hs. unfold try_except. specialize (Hm s Hs).
  destruct (m s) as [[a | e] s']; simpl in *; [assumption |].
  now apply Hh.
Qed.

Lemma inv_modify {S} (I : S -> Prop) (f : S -> S) :
  (forall s, I s -> I (f s)) -> invariant I (modify f).
Proof. intros Hf s Hs. now apply Hf. Qed.

Lemma inv_deref (I : world -> Prop) (l : loc) : invariant I (deref l).
Proof. intros w Hw. unfold deref. now destruct (heap w !! l). Qed.

Lemma inv_print (I : world -> Prop) (s : string) :
  (forall w, I w -> I (printed s w)) -> invariant I (print s).
Proof. intros H. now apply inv_modify. Qed.

Lemma inv_write_file (I : world -> Prop) (name : string) (content : list chunk) :
  (forall w, I w -> I (with_file name content w)) ->
  invariant I (write_file name content).
Proof.
  intros H. unfold write_file.
  destruct (write_error name); [apply inv_raise | now apply inv_modify].
Qed.

Lemma inv_new_object (I : world -> Prop) (a : atoms) :
  (forall w, I w -> I (allocated a w)) -> invariant I (new_object a).
Proof. intros H w Hw. now apply H. Qed.

Lemma inv_update (I : world -> Prop) (l : loc) (f : atoms -> atoms) :
  (forall w a, I w -> heap w !! l = Some a ->
               I (set_heap (<[l := f a]> (heap w)) w)) ->
  invariant I (update l f).
Proof.
  intros H w Hw. unfold update.
  destruct (heap w !! l) as [a |] eqn:Hl; [now apply H | exact Hw].
Qed.

Lemma inv_random_normal (I : world -> Prop) (mu sigma : R) :
  (forall w g, I w -> I (with_rng g w)) -> invariant I (random_normal mu sigma).
Proof.
  intros H w Hw. unfold random_normal.
  destruct (normal mu sigma (rng w)) as [x g]. now apply H.
Qed.

Lemma inv_random_normal_n (I : world -> Prop) (mu sigma : R) (n : nat) :
  (forall w g, I w -> I (with_rng g w)) ->
  invariant I (random_normal_n mu sigma n).
Proof.
  intros H. induction n; simpl.
  - apply inv_ret.
  - apply inv_bind; [now apply inv_random_normal |]. intros x.
    apply inv_bind; [assumption |]. intros xs. apply inv_ret.
Qed.

Lemma inv_lift {A} (I : world -> Prop) (m : St world A) :
  invariant I m -> invariant (on_world I) (lift m).
Proof.
  intros Hm [d w] Hs. unfold lift, on_world in *. simpl in *.
  specialize (Hm w Hs). now destruct (m w).
Qed.

Lemma inv_set_item_world (I : world -> Prop) (key : string) (v : pvalue) :
  invariant (on_world I) (set_item key v).
Proof. intros s Hs. exact Hs. Qed.

Lemma inv_lift_dict {A} (J : dict -> Prop) (m : St world A) :
  invariant (on_dict J) (lift m).
Proof.
  intros [d w] Hs. unfold lift, on_dict in *. simpl in *. now destruct (m w).
Qed.

Lemma inv_set_item_dict (J : dict -> Prop) (key : string) (v : pvalue) :
  (forall d, J d -> J (dict_set key v d)) ->
  invariant (on_dict J) (set_item key v).
Proof. intros H s Hs. now apply H. Qed.

End Invariants.

(** One step of a proof that a computation keeps an invariant: the rule
    of the outermost construct.  What a rule asks of the invariant is
    left as a goal. *)
Ltac inv_step :=
  lazymatch goal with
  | |- invariant _ (bind _ _) => apply inv_bind; [| intros ?]
  | |- invariant _ (try_except _ _) => apply inv_try_except; [| intros ?]
  | |- invariant _ (ret _) => apply inv_ret
  | |- invariant _ (raise _) => apply inv_raise
  | |- invariant _ (of_result _) => apply inv_of_result
  | |- invariant _ (modify _) => apply inv_modify
  | |- invariant (on_world _) (lift _) => apply inv_lift
  | |- invariant (on_world _) (set_item _ _) => apply inv_set_item_world
  | |- invariant (on_dict _) (lift _) => apply inv_lift_dict
  | |- invariant (on_dict _) (set_item _ _) => apply inv_set_item_dict
  | |- invariant _ (deref _) => apply inv_deref
  | |- invariant _ (print _) => apply inv_print
  | |- invariant _ (write_file _ _) => apply inv_write_file
  | |- invariant _ (new_object _) => apply inv_new_object
  | |- invariant _ (update _ _) => apply inv_update
  | |- invariant _ (random_normal_n _ _ _) => apply inv_random_normal_n
  | |- invariant _ (random_normal _ _) => apply inv_random_normal
  | |- invariant _ (match ?x with _ => _ end) => destruct x
  end.

Ltac unfold_methods :=
  unfold calculate_properties_body, parse_gjf_file, _manual_gjf_parse,
    optimize_complex, optimize_structure, create_complex, add, copy,
    translate, set_calculator, run_bfgs, Atoms_new, save_gjf_file,
    write_properties, _estimate_homo_lumo_gap, _calculate_dipole_moment,
    _estimate_binding_energy.

Section PropertyFrame.
Context {E : Externals}.

(** an invariant of the world that drawing random numbers and attaching
    a calculator keep is kept by the statements inside [try:] *)
Lemma inv_calculate_properties_body (I : world -> Prop) (self : analyzer)
    (complex_atoms : loc) :
  (forall w g, I w -> I (with_rng g w)) ->
  (forall c w a,
      fairchem_calc self = Some c -> I w -> heap w !! complex_atoms = Some a ->
      I (set_heap (<[complex_atoms := with_calculator c a]> (heap w)) w)) ->
  invariant (on_world I) (calculate_properties_body self complex_atoms).
Proof.
  intros Hrng Hcalc.
  unfold_methods. destruct (fairchem_calc self) as [c |] eqn:Hc;
    repeat inv_step; eauto.
Qed.

(** an invariant of the world that printing, drawing random numbers and
    attaching a calculator keep is kept by [calculate_properties] *)
Lemma inv_calculate_properties (I : world -> Prop) (self : analyzer)
    (complex_atoms : loc) :
  (forall s w, I w -> I (printed s w)) ->
  (forall w g, I w -> I (with_rng g w)) ->
  (forall c w a,
      fairchem_calc self = Some c -> I w -> heap w !! complex_atoms = Some a ->
      I (set_heap (<[complex_atoms := with_calculator c a]> (heap w)) w)) ->
  invariant I (calculate_properties self complex_atoms).
Proof.
  intros Hprint Hrng Hcalc.
  pose proof (inv_calculate_properties_body I self complex_atoms Hrng Hcalc)
    as Hbody.
  intros w Hw. rewrite calculate_properties_runs.
  specialize (Hbody ([], w) Hw). unfold on_world in Hbody.
  destruct (calculate_properties_body self complex_atoms ([], w))
    as [[[] | e] [partial w0]]; simpl in *; auto.
Qed.
End PropertyFrame.


(** ** The pipeline *)

Section PipelineFacts.
Context {E : Externals}.

Lemma bind_returns {S A B} (m : St S A) (k : A -> St S B) (s s' : S) (a : A) :
  m s = (Returns a, s') -> bind m k s = k a s'.
Proof. intros H. unfold bind. now rewrite H. Qed.

Lemma bind_raises {S A B} (m : St S A) (k : A -> St S B) (s s' : S) (e : exn) :
  m s = (Raises e, s') -> bind m k s = (Raises e, s').
Proof. intros H. unfold bind. now rewrite H. Qed.

Lemma bind_bind_returns {S A B C} (m : St S A) (k1 : A -> St S B)
    (k2 : B -> St S C) (s s' : S) (a : A) :
  m s = (Returns a, s') -> bind (bind m k1) k2 s = bind (k1 a) k2 s'.
Proof. intros H. unfold bind at 1 2. rewrite H. reflexivity. Qed.

Lemma len_of_returns (w : world) (l : loc) (a : atoms) :
  heap w !! l = Some a ->
  (let! a := deref l in ret (len a)) w = (Returns (len a), w).
Proof. intros H. now rewrite (bind_returns _ _ _ _ _ (deref_Some _ _ _ H)). Qed.

(** *** What one step does to the store, the output and the files *)

(** a trajectory file of the optimizer *)
Definition is_trajectory (file : string * list chunk) : Prop :=
  exists atoms : loc, file = trajectory_of atoms.

(** [optimize_structure] on an existing structure returns an existing
    structure, prints one line and writes at most the trajectory. *)
Lemma optimize_structure_effects (self : analyzer) (atoms : loc) (fmax : R)
    (steps : nat) (w : world) :
  atoms < length (heap w) ->
  exists (l : loc) (w' : world) (line : string) (files : list (string * list chunk)),
    optimize_structure self atoms fmax steps w = (Returns l, w')
    /\ l < length (heap w')
    /\ length (heap w) <= length (heap w')
    /\ stdout w' = stdout w ++ [line]
    /\ written w' = written w ++ files
    /\ (files = [] \/ files = [trajectory_of atoms])
    /\ (fairchem_calc self = None -> files = []).
Proof.
  intros Hvalid.
  destruct (lookup_lt_is_Some_2 _ _ Hvalid) as [A HA].
  destruct (fairchem_calc self) as [c |] eqn:Hc.
  - rewrite (optimize_structure_runs self atoms fmax steps w c A Hc HA).
    cbv zeta.
    destruct (snd (bfgs_run (with_calculator c (copy_of A)) fmax steps))
      as [n | e];
      eexists _, _, _, _; (split; [reflexivity |]);
      cbn [heap stdout written printed]; rewrite length_app; simpl;
      (split; [lia |]); (split; [lia |]); (split; [reflexivity |]);
      (split; [reflexivity |]); (split; [| discriminate]);
      destruct (bfgs_trajectory _ _ _); auto.
  - rewrite optimize_structure_without_calculator by assumption.
    exists atoms, (printed "FairChem calculator not available, returning original structure" w),
      "FairChem calculator not available, returning original structure", [].
    split; [reflexivity |]. cbn [heap stdout written printed].
    rewrite app_nil_r. repeat split; auto.
Qed.

(** [calculate_properties] returns, keeps the store's size, prints at
    most one line and writes nothing. *)
Lemma calculate_properties_effects (self : analyzer) (complex_atoms : loc)
    (w : world) :
  exists (properties : dict) (w' : world) (lines : list string),
    calculate_properties self complex_atoms w = (Returns properties, w')
    /\ length (heap w') = length (heap w)
    /\ stdout w' = stdout w ++ lines
    /\ length lines <= 1
    /\ written w' = written w.
Proof.
  rewrite calculate_properties_runs.
  set (I := fun w' : world =>
         length (heap w') = length (heap w)
         /\ stdout w' = stdout w /\ written w' = written w).
  assert (Hbody : on_world I
                    (snd (calculate_properties_body self complex_atoms ([], w)))).
  { apply (inv_calculate_properties_body I).
    - intros w0 g H. exact H.
    - intros c w0 a _ (H1 & H2 & H3) _. unfold I. cbn [heap stdout written set_heap].
      rewrite length_insert. auto.
    - unfold on_world, I. cbn. auto. }
  unfold on_world, I in Hbody.
  destruct (calculate_properties_body self complex_atoms ([], w))
    as [[[] | e] [partial w0]]; cbn [fst snd] in Hbody;
    destruct Hbody as (H1 & H2 & H3).
  - exists partial, w0, []. rewrite app_nil_r. simpl. repeat split; auto.
  - eexists _, _, [_]. split; [reflexivity |].
    cbn [heap stdout written printed]. rewrite H2. simpl. repeat split; auto.
Qed.

(** the chunks [save_gjf_file] writes for a structure *)
Definition gjf_chunks (title method basis : string) (charge multiplicity : Z)
    (a : atoms) : list chunk :=
  [Text ("%nprocshared=4" +:+ nl);
   Text ("%mem=2GB" +:+ nl);
   Text ("# " +:+ method +:+ "/" +:+ basis +:+ " opt freq" +:+ nl +:+ nl);
   Text (title +:+ nl +:+ nl);
   Text (pretty charge +:+ " " +:+ pretty multiplicity +:+ nl)]
  ++ zip_with CoordRow (get_chemical_symbols a) (get_positions a)
  ++ [Text nl].

(** the chunks of the properties file *)
Definition properties_chunks (properties : dict) : list chunk :=
  [Text ("Molecular Complex Properties" +:+ nl);
   Text (repeat_str "=" 40 +:+ nl +:+ nl)]
  ++ map (fun kv => PropRow (fst kv) (snd kv)) properties.

Lemma save_gjf_file_runs (atoms : loc) (filename title method basis : string)
    (charge multiplicity : Z) (w : world) (a : Atoms Calc) :
  heap w !! atoms = Some a ->
  save_gjf_file atoms filename title method basis charge multiplicity w
  = match write_error filename with
    | Some e => (Raises e, w)
    | None =>
        (Returns tt,
         with_file filename (gjf_chunks title method basis charge multiplicity a) w)
    end.
Proof.
  intros H. unfold save_gjf_file.
  rewrite (bind_returns _ _ _ _ _ (deref_Some _ _ _ H)).
  unfold write_file. destruct (write_error filename); reflexivity.
Qed.

Lemma write_properties_runs (filename : string) (properties : dict) (w : world) :
  write_properties filename properties w
  = match write_error filename with
    | Some e => (Raises e, w)
    | None => (Returns tt, with_file filename (properties_chunks properties) w)
    end.
Proof.
  unfold write_properties, write_file. destruct (write_error filename); reflexivity.
Qed.

(** *** The sixth step *)

(** what [analyze_complex] does after it has announced the sixth step *)
Definition save_results (final_complex : loc) (properties : dict)
    (output_prefix : string) : St world (loc * dict) :=
  let output_gjf := output_prefix +:+ "_optimized.gjf" in
  do! save_gjf_file final_complex output_gjf
        "Optimized Absorbent-Analyte Complex" "B3LYP" "6-31G(d)" 0 1 in
  let properties_file := output_prefix +:+ "_properties.txt" in
  do! write_properties properties_file properties in
  do! print ("Analysis complete! Results saved as " +:+ output_gjf
             +:+ " and " +:+ properties_file) in
  ret (final_complex, properties).

Lemma save_results_runs (final_complex : loc) (properties : dict)
    (output_prefix : string) (w : world) (C : Atoms Calc) :
  heap w !! final_complex = Some C ->
  let output_gjf := output_prefix +:+ "_optimized.gjf" in
  let properties_file := output_prefix +:+ "_properties.txt" in
  let saved :=
    with_file output_gjf
      (gjf_chunks "Optimized Absorbent-Analyte Complex" "B3LYP" "6-31G(d)" 0 1 C) w in
  save_results final_complex properties output_prefix w
  = match write_error output_gjf with
    | Some e => (Raises e, w)
    | None =>
        match write_error properties_file with
        | Some e => (Raises e, saved)
        | None =>
            (Returns (final_complex, properties),
             printed ("Analysis complete! Results saved as " +:+ output_gjf
                      +:+ " and " +:+ properties_file)
               (with_file properties_file (properties_chunks properties) saved))
        end
    end.
Proof.
  intros HC output_gjf properties_file saved. unfold save_results.
  fold output_gjf properties_file.
  unfold bind at 1. rewrite (save_gjf_file_runs _ _ _ _ _ _ _ _ _ HC).
  destruct (write_error output_gjf); [reflexivity |].
  unfold bind at 1. rewrite write_properties_runs. fold saved.
  destruct (write_error properties_file); reflexivity.
Qed.

(** *** The first five steps *)

(** the world after the two lines that open a run *)
Definition announced (w : world) : world :=
  printed "1. Parsing input structures..."
    (printed "Starting molecular complex analysis..." w).

Lemma analyze_complex_first_raises (self : analyzer)
    (absorbent_file analyte_file output_prefix : string) (w : world) (e : exn) :
  parse_outcome absorbent_file = Raises e ->
  analyze_complex self absorbent_file analyte_file output_prefix w
  = (Raises e, complained absorbent_file (announced w)).
Proof.
  intros H. unfold analyze_complex.
  do 2 rewrite (bind_returns _ _ _ _ _ (eq_refl : print _ _ = (Returns tt, _))).
  erewrite bind_raises by (rewrite parse_gjf_file_outcome, H; reflexivity).
  reflexivity.
Qed.

Lemma analyze_complex_second_raises (self : analyzer)
    (absorbent_file analyte_file output_prefix : string) (w : world)
    (A : atoms) (e : exn) :
  parse_outcome absorbent_file = Returns A ->
  parse_outcome analyte_file = Raises e ->
  analyze_complex self absorbent_file analyte_file output_prefix w
  = (Raises e,
     complained analyte_file (allocated A (complained absorbent_file (announced w)))).
Proof.
  intros HA HB. unfold analyze_complex.
  do 2 rewrite (bind_returns _ _ _ _ _ (eq_refl : print _ _ = (Returns tt, _))).
  erewrite bind_returns by (rewrite parse_gjf_file_outcome, HA; reflexivity).
  erewrite bind_raises by (rewrite parse_gjf_file_outcome, HB; reflexivity).
  reflexivity.
Qed.



(** When both inputs are parsed, the first five steps run to their end,
    whatever the optimizer and the calculator do, and hand over to the
    sixth. *)
Lemma analyze_complex_first_five_steps (self : analyzer)
    (absorbent_file analyte_file output_prefix : string) (w : world)
    (A B : atoms) :
  parse_outcome absorbent_file = Returns A ->
  parse_outcome analyte_file = Returns B ->
  exists (final_complex : loc) (properties : dict) (w7 : world) (C : atoms)
         (l2 l4 l5 : list string) (files : list (string * list chunk)),
    five_steps self absorbent_file analyte_file w final_complex properties w7
    /\ analyze_complex self absorbent_file analyte_file output_prefix w
       = save_results final_complex properties output_prefix
           (printed "6. Saving results..." w7)
    /\ heap w7 !! final_complex = Some C
    /\ stdout w7
       = stdout w
         ++ ["Starting molecular complex analysis...";
             "1. Parsing input structures..."]
         ++ complaint absorbent_file ++ complaint analyte_file
         ++ ["   Absorbent: " +:+ pretty (len A) +:+ " atoms";
             "   Analyte: " +:+ pretty (len B) +:+ " atoms";
             "2. Optimizing individual structures..."]
         ++ l2
         ++ ["3. Creating initial complex..."; "4. Optimizing complex structure..."]
         ++ l4
         ++ ["5. Calculating molecular properties..."]
         ++ l5
    /\ length l2 = 2 /\ length l4 = 1 /\ length l5 <= 1
    /\ written w7 = written w ++ files
    /\ Forall is_trajectory files
    /\ length files <= 3
    /\ (fairchem_calc self = None -> files = []).
Proof.
  intros HA HB.
  pose proof (parse_gjf_file_outcome absorbent_file (announced w)) as H1.
  rewrite HA in H1.
  set (w1 := allocated A (complained absorbent_file (announced w))) in H1.
  pose proof (parse_gjf_file_outcome analyte_file w1) as H2. rewrite HB in H2.
  set (w2 := allocated B (complained analyte_file w1)) in H2.
  assert (Hh1 : heap w1 = heap w ++ [A]).
  { subst w1. cbn [heap allocated set_heap]. now rewrite heap_complained. }
  assert (Hh2 : heap w2 = heap w ++ [A; B]).
  { subst w2. cbn [heap allocated set_heap].
    rewrite heap_complained, Hh1, <- app_assoc. reflexivity. }
  assert (Hn1 : length (heap w1) = S (length (heap w))).
  { rewrite Hh1, length_app. simpl. lia. }
  change (length (heap (announced w))) with (length (heap w)) in H1.
  rewrite Hn1 in H2.
  assert (Hl1 : heap w2 !! length (heap w) = Some A)
    by (rewrite Hh2; apply lookup_new).
  assert (Hl2 : heap w2 !! S (length (heap w)) = Some B)
    by (rewrite Hh2; apply lookup_second_new).
  set (w2' := printed "2. Optimizing individual structures..."
         (printed ("   Analyte: " +:+ pretty (len B) +:+ " atoms")
            (printed ("   Absorbent: " +:+ pretty (len A) +:+ " atoms") w2))).
  destruct (optimize_structure_effects self (length (heap w)) 0.05 200 w2')
    as (opt_absorbent & w3 & line3 & files3 & H3 & Hv3 & Hs3 & Ho3 & Hw3 & Hf3 & Hc3).
  { apply lookup_lt_Some in Hl1. exact Hl1. }
  destruct (optimize_structure_effects self (S (length (heap w))) 0.05 200 w3)
    as (opt_analyte & w4 & line4 & files4 & H4 & Hv4 & Hs4 & Ho4 & Hw4 & Hf4 & Hc4).
  { apply lookup_lt_Some in Hl2. unfold w2' in Hs3.
    cbn [heap printed] in Hs3. lia. }
  assert (Hv3' : opt_absorbent < length (heap w4)) by lia.
  destruct (lookup_lt_is_Some_2 (heap w4) opt_absorbent Hv3') as [A' HA'].
  destruct (lookup_lt_is_Some_2 (heap w4) opt_analyte Hv4) as [B' HB'].
  pose proof (create_complex_runs (printed "3. Creating initial complex..." w4)
                opt_absorbent opt_analyte A' B' 3.0 HA' HB') as H5.
  cbv zeta in H5.
  set (w5 := set_heap _ _) in H5.
  destruct (optimize_structure_effects self (S (length (heap w4))) 0.05 300
              (printed "4. Optimizing complex structure..." w5))
    as (final_complex & w6 & line6 & files6 & H6 & Hv6 & Hs6 & Ho6 & Hw6 & Hf6 & Hc6).
  { subst w5. cbn [heap printed set_heap]. rewrite length_app. simpl. lia. }
  destruct (calculate_properties_effects self final_complex
              (printed "5. Calculating molecular properties..." w6))
    as (properties & w7 & lines7 & H7 & Hs7 & Ho7 & Hlen7 & Hw7).
  assert (Hv7 : final_complex < length (heap w7))
    by (cbn [heap printed] in Hs7; lia).
  destruct (lookup_lt_is_Some_2 (heap w7) final_complex Hv7) as [C HC].
  exists final_complex, properties, w7, C, [line3; line4], [line6], lines7,
    (files3 ++ files4 ++ files6).
  split.
  { eapply (five_steps_run self absorbent_file analyte_file w
              _ _ opt_absorbent opt_analyte _ final_complex
              A B properties w1 w2 w3 w4 w5 w6 w7); eauto. }
  split.
  { unfold analyze_complex.
    do 2 rewrite (bind_returns _ _ _ _ _ (eq_refl : print _ _ = (Returns tt, _))).
    rewrite (bind_returns _ _ _ _ _ H1), (bind_returns _ _ _ _ _ H2).
    rewrite (bind_returns _ _ _ _ _ (len_of_returns w2 _ A Hl1)).
    rewrite (bind_returns _ _ _ _ _ (eq_refl : print _ _ = (Returns tt, _))).
    rewrite (bind_returns _ _ _ _ _ (len_of_returns (printed _ w2) _ B Hl2)).
    do 2 rewrite (bind_returns _ _ _ _ _ (eq_refl : print _ _ = (Returns tt, _))).
    rewrite (bind_returns _ _ _ _ _ H3), (bind_returns _ _ _ _ _ H4).
    rewrite (bind_returns _ _ _ _ _ (eq_refl : print _ _ = (Returns tt, _))).
    rewrite (bind_returns _ _ _ _ _ H5).
    rewrite (bind_returns _ _ _ _ _ (eq_refl : print _ _ = (Returns tt, _))).
    unfold optimize_complex.
    rewrite (bind_returns _ _ _ _ _ H6).
    rewrite (bind_returns _ _ _ _ _ (eq_refl : print _ _ = (Returns tt, _))).
    rewrite (bind_returns _ _ _ _ _ H7).
    rewrite (bind_returns _ _ _ _ _ (eq_refl : print _ _ = (Returns tt, _))).
    reflexivity. }
  split; [exact HC |].
  split.
  { rewrite Ho7. cbn [stdout printed]. rewrite Ho6. cbn [stdout printed].
    subst w5. cbn [stdout printed set_heap]. rewrite Ho4, Ho3.
    subst w2' w2 w1. cbn [stdout printed allocated set_heap].
    repeat (rewrite stdout_complained;
            cbn [stdout printed allocated set_heap announced]).
    rewrite <- !app_assoc. reflexivity. }
  split; [reflexivity |]. split; [reflexivity |]. split; [exact Hlen7 |].
  split.
  { rewrite Hw7. cbn [written printed]. rewrite Hw6. cbn [written printed].
    subst w5. cbn [written printed set_heap]. rewrite Hw4, Hw3.
    subst w2' w2 w1. cbn [written printed allocated set_heap].
    repeat (rewrite written_complained;
            cbn [written printed allocated set_heap announced]).
    rewrite <- !app_assoc. reflexivity. }
  split.
  { repeat apply Forall_app_2;
      match goal with
      | H : ?f = [] \/ ?f = [trajectory_of ?l] |- Forall is_trajectory ?f =>
          destruct H as [-> | ->]; [constructor |];
          repeat constructor; now exists l
      end. }
  split.
  { rewrite !length_app.
    destruct Hf3 as [-> | ->], Hf4 as [-> | ->], Hf6 as [-> | ->]; simpl; lia. }
  intros Hnone. now rewrite (Hc3 Hnone), (Hc4 Hnone), (Hc6 Hnone).
Qed.

End PipelineFacts.

(** The two input files of the demonstration are parsed by the manual
    parser. *)
Lemma scan_lines_co :
  scan_lines (E := Demo.externals) Demo.co_gjf
  = (symbols Demo.carbon_monoxide, positions Demo.carbon_monoxide).
Proof.
  cbv -[Rplus Rmult Rinv Ropp Rdiv Rminus IZR FloatLiteral.to_R].
  unfold FloatLiteral.to_R; simpl.
  repeat (f_equal; try lra).
Qed.

Lemma parse_outcome_co :
  parse_outcome (E := Demo.externals) "co.gjf" = Returns Demo.carbon_monoxide.
Proof.
  unfold parse_outcome, manual_outcome.
  change (ase_read "co.gjf") with (@Raises (@atoms Demo.externals)
                                     (Exception "not a Gaussian input file")).
  change (open_error "co.gjf") with (@None exn).
  change (readlines "co.gjf") with Demo.co_gjf.
  rewrite scan_lines_co. reflexivity.
Qed.

Lemma parse_outcome_water :
  parse_outcome (E := Demo.externals) "water.gjf" = Returns Demo.water.
Proof.
  unfold parse_outcome, manual_outcome.
  change (ase_read "water.gjf") with (@Raises (@atoms Demo.externals)
                                        (Exception "not a Gaussian input file")).
  change (open_error "water.gjf") with (@None exn).
  change (readlines "water.gjf") with Demo.water_gjf.
  rewrite manual_parse_water. reflexivity.
Qed.



(** * Further properties of the code *)

(** ** More about the manual parser *)

Section ScanFacts.
Context {E : Externals}.

(** a line the loop passes over: blank, or a [#] or [%] line *)
Definition passed_over (raw : string) : bool :=
  let line := Py.strip raw in
  negb (Py.truthy_str line) || Py.startswith line "#" || Py.startswith line "%".

(** a line whose second to fourth fields, when it has four, are numbers *)
Definition coordinates_parse (raw : string) : bool :=
  match Py.split (Py.strip raw) with
  | _ :: p1 :: p2 :: p3 :: _ =>
      match float p1, float p2, float p3 with
      | Some _, Some _, Some _ => true
      | _, _, _ => false
      end
  | _ => true
  end.

Definition scan_from (st : bool * (list string * list vec3)) (lines : list string)
  : bool * (list string * list vec3) :=
  fold_left scan_line lines st.

Lemma scan_lines_from (lines : list string) :
  scan_lines lines = snd (scan_from (false, ([], [])) lines).
Proof. reflexivity. Qed.

Lemma scan_line_passed_over (st : bool * (list string * list vec3)) (raw : string) :
  passed_over raw = true -> scan_line st raw = st.
Proof.
  intros H. unfold scan_line, passed_over in *.
  destruct st as [cs [ss ps]]. now rewrite H.
Qed.

Lemma read_atom_line_clean (raw : string) (ss : list string) (ps : list vec3) :
  coordinates_parse raw = true ->
  let r := read_atom_line (Py.strip raw) ss ps in
  length (fst r) + length ps = length (snd r) + length ss.
Proof.
  unfold read_atom_line, coordinates_parse. intros H.
  destruct (Py.split (Py.strip raw)) as [| p0 [| p1 [| p2 [| p3 rest]]]];
    simpl; try lia.
  destruct (float p1); [| discriminate].
  destruct (float p2); [| discriminate].
  destruct (float p3); [| discriminate].
  simpl. rewrite !length_app. simpl. lia.
Qed.

Lemma scan_line_clean (st : bool * (list string * list vec3)) (raw : string) :
  passed_over raw || coordinates_parse raw = true ->
  length (fst (snd st)) = length (snd (snd st)) ->
  length (fst (snd (scan_line st raw))) = length (snd (snd (scan_line st raw))).
Proof.
  intros Hline Hst. destruct (passed_over raw) eqn:Hp.
  - now rewrite scan_line_passed_over.
  - simpl in Hline. destruct st as [cs [ss ps]]. unfold scan_line.
    pose proof (read_atom_line_clean raw ss ps Hline) as Hr. cbv zeta in Hr.
    simpl in Hst.
    repeat match goal with
           | |- context [if ?b then _ else _] => destruct b
           end; simpl; try lia.
Qed.

Lemma scan_from_clean (lines : list string) :
  forall st,
    forallb (fun raw => passed_over raw || coordinates_parse raw) lines = true ->
    length (fst (snd st)) = length (snd (snd st)) ->
    length (fst (snd (scan_from st lines)))
    = length (snd (snd (scan_from st lines))).
Proof.
  induction lines as [| raw lines IH]; intros st Hall Hst; [exact Hst |].
  cbn [forallb] in Hall. apply andb_true_iff in Hall as [Hraw Hall].
  unfold scan_from in *. cbn [fold_left]. apply IH; [exact Hall |].
  now apply scan_line_clean.
Qed.

(** X2: on a file whose lines are all passed over or have numbers in
    their second to fourth fields, a structure the manual parser returns
    has as many symbols as positions. *)
Theorem manual_parse_clean_file_well_formed (filepath : string) (w w' : world)
    (l : loc) :
  forallb (fun raw => passed_over raw || coordinates_parse raw)
          (readlines filepath) = true ->
  _manual_gjf_parse filepath w = (Returns l, w') ->
  exists a : atoms, heap w' !! l = Some a /\ well_formed a.
Proof.
  intros Hclean. rewrite manual_gjf_parse_outcome. unfold manual_outcome.
  destruct (open_error filepath); [discriminate |].
  pose proof (scan_from_clean (readlines filepath) (false, ([], []))
                Hclean eq_refl) as Hlen.
  rewrite scan_lines_from.
  destruct (scan_from (false, ([], [])) (readlines filepath)) as [cs [ss ps]].
  cbn [fst snd] in *.
  destruct (Py.truthy ss && Py.truthy ps); [| discriminate].
  destruct (Atoms_init ss ps) as [a | e] eqn:Ha; [| discriminate].
  apply Atoms_init_Returns in Ha as (_ & _ & ->).
  intros [= <- <-]. eexists. split; [apply lookup_new | exact Hlen].
Qed.

(** a line that cannot open the coordinate section: passed over, or
    without a digit, or without a letter *)
Definition header_like (raw : string) : bool :=
  passed_over raw
  || negb (Py.any Py.isdigit (Py.strip raw) && Py.any Py.isalpha (Py.strip raw)).

Lemma scan_line_header_like (ss : list string) (ps : list vec3) (raw : string) :
  header_like raw = true ->
  scan_line (false, (ss, ps)) raw = (false, (ss, ps)).
Proof.
  unfold header_like. intros H. destruct (passed_over raw) eqn:Hp.
  - now apply scan_line_passed_over.
  - simpl in H. unfold scan_line. unfold passed_over in Hp. rewrite Hp.
    apply negb_true_iff in H. rewrite H. simpl.
    now destruct (Py.truthy_str (Py.strip raw) && true).
Qed.

(** X3: lines before the coordinate section that are blank, start with
    [#] or [%], or lack a digit or lack a letter (a title, the charge
    and multiplicity line) contribute nothing. *)
Theorem scan_lines_skips_header (header rest : list string) :
  forallb header_like header = true ->
  scan_lines (header ++ rest) = scan_lines rest.
Proof.
  intros H. unfold scan_lines. rewrite fold_left_app. f_equal. f_equal.
  induction header as [| raw header IH]; [reflexivity |].
  cbn [forallb] in H. apply andb_true_iff in H as [Hraw H].
  cbn [fold_left]. rewrite scan_line_header_like by exact Hraw. now apply IH.
Qed.

(** X4: a blank line or a [#] or [%] line contributes nothing, wherever
    it stands in the file. *)
Theorem scan_lines_ignores_passed_over (before after : list string) (raw : string) :
  passed_over raw = true ->
  scan_lines (before ++ raw :: after) = scan_lines (before ++ after).
Proof.
  intros H. unfold scan_lines. rewrite !fold_left_app. cbn [fold_left].
  now rewrite scan_line_passed_over.
Qed.

(** X5: [parse_gjf_file] writes no file, draws no random number and
    changes no existing object; it adds exactly one object when it
    returns and none when it raises; it prints one line, the complaint,
    exactly when the reader raised. *)
Theorem parse_gjf_file_frame (filepath : string) (w w' : world) (r : result loc) :
  parse_gjf_file filepath w = (r, w') ->
  written w' = written w
  /\ rng w' = rng w
  /\ (forall l a, heap w !! l = Some a -> heap w' !! l = Some a)
  /\ match r with
     | Returns l => l = length (heap w) /\ length (heap w') = S (length (heap w))
     | Raises e => heap w' = heap w
     end
  /\ match ase_read filepath with
     | Returns _ => stdout w' = stdout w
     | Raises e =>
         stdout w' = stdout w ++ ["Error reading " +:+ filepath +:+ ": " +:+ str e]
     end.
Proof.
  unfold parse_gjf_file, try_except, bind, of_result.
  destruct (ase_read filepath) as [a | e].
  - intros [= <- <-]. cbn. repeat split; try reflexivity.
    + intros l a' Hl. now apply lookup_old.
    + rewrite length_app. simpl. lia.
  - cbn. rewrite manual_gjf_parse_outcome.
    destruct (manual_outcome filepath) as [a | e'].
    + intros [= <- <-]. cbn. repeat split; try reflexivity.
      * intros l a' Hl. now apply lookup_old.
      * rewrite length_app. simpl. lia.
    + intros [= <- <-]. cbn. repeat split; auto.
Qed.

End ScanFacts.

(** ** More about the estimates *)

Section MoreEstimateFacts.
Context {E : Externals}.

Lemma binding_sites_from_In (start : nat) (ps : list (vec3 * string))
    (i : nat) (el : string) (pos : list R) :
  In (mkSite i el pos) (binding_sites_from start ps)
  <-> exists (j : nat) (p : vec3),
        i = start + j /\ ps !! j = Some (p, el) /\ pos = vec_tolist p
        /\ Py.contains el ["O"; "N"; "S"] = true.
Proof.
  revert start. induction ps as [| [p s] ps IH]; intros start.
  - simpl. split; [tauto | intros (j & p & _ & H & _); discriminate].
  - cbn [binding_sites_from].
    destruct (Py.contains s ["O"; "N"; "S"]) eqn:Hs.
    + cbn [In]. rewrite IH. split.
      * intros [[= <- <- <-] | (j & q & -> & Hj & -> & Hel)].
        -- exists 0, p. rewrite Nat.add_0_r. auto.
        -- exists (S j), q. split; [lia | auto].
      * intros ([| j] & q & -> & Hj & -> & Hel).
        -- left. injection Hj as <- <-. now rewrite Nat.add_0_r.
        -- right. exists j, q. split; [lia | auto].
    + rewrite IH. split.
      * intros (j & q & -> & Hj & -> & Hel).
        exists (S j), q. split; [lia | auto].
      * intros ([| j] & q & -> & Hj & -> & Hel).
        -- injection Hj as <- <-. congruence.
        -- exists j, q. split; [lia | auto].
Qed.

(** X9: the binding sites are exactly the atoms whose symbol is O, N
    or S, each with its own index and position. *)
Theorem binding_sites_are_the_heteroatoms (a : atoms) (i : nat) (el : string)
    (pos : list R) :
  In (mkSite i el pos) (_identify_binding_sites a)
  <-> exists p : vec3,
        get_positions a !! i = Some p
        /\ get_chemical_symbols a !! i = Some el
        /\ pos = vec_tolist p
        /\ (el = "O" \/ el = "N" \/ el = "S").
Proof.
  unfold _identify_binding_sites. rewrite binding_sites_from_In. split.
  - intros (j & p & -> & Hj & -> & Hel).
    apply lookup_zip_with_Some in Hj as (p' & s & [= <- <-] & Hp & Hs).
    exists p. repeat split; try assumption.
    apply contains_In in Hel. simpl in Hel. intuition.
  - intros (p & Hp & Hs & -> & Hel).
    exists i, p. split; [reflexivity |]. split.
    + apply lookup_zip_with_Some. eauto.
    + split; [reflexivity |]. apply contains_In. simpl. intuition.
Qed.

(** the number of C, N and O atoms *)
Definition conjugated_atoms (a : atoms) : nat :=
  spec_count "C" (get_chemical_symbols a)
  + spec_count "N" (get_chemical_symbols a)
  + spec_count "O" (get_chemical_symbols a).

Lemma uv_vis_of_count (a : atoms) :
  _estimate_uv_vis a = Rmin (200 + 30 * sqrt (INR (conjugated_atoms a))) 800.
Proof.
  unfold _estimate_uv_vis, conjugated_atoms. now rewrite filter_length_count.
Qed.

Lemma sqrt_400 : sqrt 400 = 20%R.
Proof. replace 400%R with (20 * 20)%R by lra. apply sqrt_square. lra. Qed.

(** X10: the UV-Vis estimate never decreases when C, N or O atoms are
    added; it is [200 + 30 * sqrt n] up to 400 such atoms, 800 from 400
    on, and 200 without any. *)
Theorem uv_vis_grows_until_400_atoms (a b : atoms) :
  conjugated_atoms a <= conjugated_atoms b ->
  (_estimate_uv_vis a <= _estimate_uv_vis b)%R
  /\ (conjugated_atoms a <= 400 ->
      _estimate_uv_vis a = (200 + 30 * sqrt (INR (conjugated_atoms a)))%R)
  /\ (400 <= conjugated_atoms b -> _estimate_uv_vis b = 800%R)
  /\ (conjugated_atoms a = 0 -> _estimate_uv_vis a = 200%R).
Proof.
  intros Hab. rewrite !uv_vis_of_count.
  assert (Hmono : forall n m, n <= m -> (sqrt (INR n) <= sqrt (INR m))%R).
  { intros n m Hnm. apply sqrt_le_1; try apply pos_INR. now apply le_INR. }
  assert (H400 : sqrt (INR 400) = 20%R).
  { rewrite INR_IZR_INZ. change (Z.of_nat 400) with 400%Z. apply sqrt_400. }
  split; [| split; [| split]].
  - apply Rle_min_compat_r. specialize (Hmono _ _ Hab). lra.
  - intros Ha. apply Rmin_left.
    specialize (Hmono _ _ Ha). rewrite H400 in Hmono. lra.
  - intros Hb. apply Rmin_right.
    specialize (Hmono _ _ Hb). rewrite H400 in Hmono. lra.
  - intros ->. simpl. rewrite sqrt_0. rewrite Rmin_left by lra. lra.
Qed.
End MoreEstimateFacts.

Section PropertyFrame2.
Context {E : Externals}.

(** what [calculate_properties] never changes of a structure *)
Definition geometry (a : atoms) : list string * list vec3 :=
  (symbols a, positions a).

Lemma lift_returns {A} (m : St world A) (d : dict) (w w' : world) (a : A) :
  m w = (Returns a, w') -> lift m (d, w) = (Returns a, (d, w')).
Proof. intros H. unfold lift. simpl. now rewrite H. Qed.

(** the calculator stays attached to the end of [calculate_properties] *)
Lemma calculate_properties_attaches (self : analyzer) (complex_atoms : loc)
    (w : world) (c : Calc) (a : atoms) :
  fairchem_calc self = Some c ->
  heap w !! complex_atoms = Some a ->
  heap (snd (calculate_properties self complex_atoms w))
  = <[complex_atoms := with_calculator c a]> (heap w).
Proof.
  intros Hc Ha.
  set (h1 := <[complex_atoms := with_calculator c a]> (heap w)).
  set (I := fun w' : world => heap w' = h1).
  rewrite calculate_properties_runs.
  assert (Hbody : on_world I (snd (calculate_properties_body self complex_atoms ([], w)))).
  { unfold calculate_properties_body. rewrite Hc.
    rewrite (bind_returns _ _ _ _ _ (lift_returns _ _ _ _ _ (deref_Some _ _ _ Ha))).
    rewrite (bind_returns _ _ _ _ _ (eq_refl : set_item _ _ _ = (Returns tt, _))).
    rewrite (bind_returns _ _ _ _ _ (eq_refl : set_item _ _ _ = (Returns tt, _))).
    rewrite (bind_returns _ _ _ _ _ (eq_refl : set_item _ _ _ = (Returns tt, _))).
    cbn [fst snd]. unfold set_calculator. cbv beta iota.
    rewrite (bind_bind_returns _ _ _ _ _ _
               (lift_returns _ _ _ _ _ (update_Some _ _ _ _ Ha))).
    match goal with |- on_world I (snd (?m ?s)) =>
      assert (Hinv : invariant (on_world I) m); [| apply Hinv; reflexivity] end.
    unfold_methods. repeat inv_step; subst I; cbn; auto. }
  unfold on_world, I in Hbody.
  destruct (calculate_properties_body self complex_atoms ([], w))
    as [[[] | e] [partial w0]]; exact Hbody.
Qed.

(** X11: whether it returns entries or an error, [calculate_properties]
    writes no file, changes no symbol or position of any object and no
    object other than the one it is given; without a calculator the
    store is unchanged, with one the structure it is given ends up with
    the calculator attached. *)
Theorem calculate_properties_frame (self : analyzer) (complex_atoms : loc)
    (w : world) :
  let w' := snd (calculate_properties self complex_atoms w) in
  written w' = written w
  /\ map geometry (heap w') = map geometry (heap w)
  /\ (forall l, l <> complex_atoms -> heap w' !! l = heap w !! l)
  /\ (fairchem_calc self = None -> heap w' = heap w)
  /\ (forall c a,
        fairchem_calc self = Some c ->
        heap w !! complex_atoms = Some a ->
        heap w' !! complex_atoms = Some (with_calculator c a)).
Proof.
  intros w'. subst w'. split; [| split; [| split; [| split]]].
  - apply (inv_calculate_properties (fun w' => written w' = written w));
      auto.
  - apply (inv_calculate_properties
             (fun w' => map geometry (heap w') = map geometry (heap w))); auto.
    intros c w0 a _ Hw0 Ha. cbn [heap set_heap].
    rewrite <- Hw0, list_fmap_insert. apply list_insert_id.
    rewrite list_lookup_fmap.
    transitivity (geometry <$> Some a); [f_equal; exact Ha | reflexivity].
  - intros l Hl.
    apply (inv_calculate_properties
             (fun w' => heap w' !! l = heap w !! l)); auto.
    intros c w0 a _ Hw0 Ha. cbn [heap set_heap].
    rewrite list_lookup_insert_ne by auto. exact Hw0.
  - intros Hnone.
    apply (inv_calculate_properties (fun w' => heap w' = heap w)); auto.
    intros c w0 a Hc. congruence.
  - intros c a Hc Ha. rewrite (calculate_properties_attaches _ _ _ _ _ Hc Ha).
    apply list_lookup_insert_eq. now apply lookup_lt_Some in Ha.
Qed.
End PropertyFrame2.

Section PropertyEntries.
Context {E : Externals}.

Lemma random_normal_returns (mu sigma : R) (w : world) :
  exists (x : R) (g : Rng),
    random_normal mu sigma w = (Returns x, with_rng g w).
Proof.
  unfold random_normal. destruct (normal mu sigma (rng w)) as [x g]. eauto.
Qed.

Lemma random_normal_n_returns (mu sigma : R) (n : nat) (w : world) :
  exists (xs : list R) (g : Rng),
    random_normal_n mu sigma n w = (Returns xs, with_rng g w).
Proof.
  revert w. induction n as [| n IH]; intros w; cbn [random_normal_n].
  - exists [], (rng w). now destruct w.
  - destruct (random_normal_returns mu sigma w) as (x & g & Hx).
    destruct (IH (with_rng g w)) as (xs & g' & Hxs).
    exists (x :: xs), g'.
    rewrite (bind_returns _ _ _ _ _ Hx), (bind_returns _ _ _ _ _ Hxs).
    reflexivity.
Qed.

Lemma homo_lumo_gap_returns (a : atoms) (w : world) :
  exists (x : R) (g : Rng),
    _estimate_homo_lumo_gap a w = (Returns x, with_rng g w).
Proof.
  unfold _estimate_homo_lumo_gap.
  repeat match goal with |- context [if ?b then _ else _] => destruct b end;
    match goal with |- context [random_normal ?m ?s] =>
      destruct (random_normal_returns m s w) as (x & g & Hx) end;
    rewrite (bind_returns _ _ _ _ _ Hx); eauto.
Qed.

Lemma dipole_moment_returns (a : atoms) (w : world) :
  exists (x : R) (g : Rng),
    _calculate_dipole_moment a w = (Returns x, with_rng g w).
Proof.
  unfold _calculate_dipole_moment.
  destruct (random_normal_n_returns 0 0.1 (len a) w) as (xs & g & Hxs).
  rewrite (bind_returns _ _ _ _ _ Hxs). eauto.
Qed.

Lemma binding_energy_returns (a : atoms) (w : world) :
  exists (x : R) (g : Rng),
    _estimate_binding_energy a w = (Returns x, with_rng g w).
Proof.
  unfold _estimate_binding_energy.
  destruct (random_normal_returns 0 1.0 w) as (x & g & Hx).
  rewrite (bind_returns _ _ _ _ _ Hx). eauto.
Qed.

Lemma calculate_properties_none_runs (self : analyzer)
    (complex_atoms : loc) (w : world) (a : atoms) :
  fairchem_calc self = None ->
  heap w !! complex_atoms = Some a ->
  exists (gap dipole binding : R) (g : Rng),
    calculate_properties self complex_atoms w
    = (Returns
         [("total_atoms", PInt (len a));
          ("molecular_volume", PFloat (_calculate_molecular_volume a));
          ("center_of_mass", PList (vec_tolist (get_center_of_mass a)));
          ("homo_lumo_gap", PFloat gap);
          ("dipole_moment", PFloat dipole);
          ("polarizability", PFloat (0.1 * _calculate_molecular_volume a));
          ("binding_energy", PFloat binding);
          ("binding_sites", PSites (_identify_binding_sites a));
          ("ir_frequencies", PFreqs (_estimate_ir_frequencies a));
          ("uv_vis_absorption", PFloat (_estimate_uv_vis a))],
       with_rng g w).
Proof.
  intros Hnone Ha. rewrite calculate_properties_runs.
  unfold calculate_properties_body. rewrite Hnone.
  rewrite (bind_returns _ _ _ _ _ (lift_returns _ _ _ _ _ (deref_Some _ _ _ Ha))).
  do 3 rewrite (bind_returns _ _ _ _ _ (eq_refl : set_item _ _ _ = (Returns tt, _))).
  rewrite (bind_returns _ _ _ _ _ (eq_refl : ret tt _ = (Returns tt, _))).
  cbn [fst snd].
  rewrite (bind_returns _ _ _ _ _ (lift_returns _ _ _ _ _ (deref_Some _ _ _ Ha))).
  destruct (homo_lumo_gap_returns a w) as (gap & g1 & Hgap).
  rewrite (bind_returns _ _ _ _ _ (lift_returns _ _ _ _ _ Hgap)).
  rewrite (bind_returns _ _ _ _ _ (eq_refl : set_item _ _ _ = (Returns tt, _))).
  cbn [fst snd].
  destruct (dipole_moment_returns a (with_rng g1 w)) as (dipole & g2 & Hdip).
  rewrite (bind_returns _ _ _ _ _ (lift_returns _ _ _ _ _ Hdip)).
  do 2 rewrite (bind_returns _ _ _ _ _ (eq_refl : set_item _ _ _ = (Returns tt, _))).
  cbn [fst snd].
  destruct (binding_energy_returns a (with_rng g2 (with_rng g1 w)))
    as (binding & g3 & Hbind).
  rewrite (bind_returns _ _ _ _ _ (lift_returns _ _ _ _ _ Hbind)).
  do 3 rewrite (bind_returns _ _ _ _ _ (eq_refl : set_item _ _ _ = (Returns tt, _))).
  exists gap, dipole, binding, g3. reflexivity.
Qed.

(** X12: without a calculator, [calculate_properties] on an existing
    structure returns exactly ten entries, in their fixed order, none
    of them an error, prints nothing and leaves the store unchanged. *)
Theorem calculate_properties_without_calculator (self : analyzer)
    (complex_atoms : loc) (w : world) (a : atoms) :
  fairchem_calc self = None ->
  heap w !! complex_atoms = Some a ->
  exists (properties : dict) (w' : world),
    calculate_properties self complex_atoms w = (Returns properties, w')
    /\ map fst properties
       = ["total_atoms"; "molecular_volume"; "center_of_mass"; "homo_lumo_gap";
          "dipole_moment"; "polarizability"; "binding_energy"; "binding_sites";
          "ir_frequencies"; "uv_vis_absorption"]
    /\ dict_get "error" properties = None
    /\ dict_get "total_atoms" properties = Some (PInt (len a))
    /\ dict_get "polarizability" properties
       = Some (PFloat (0.1 * _calculate_molecular_volume a))
    /\ dict_get "binding_sites" properties = Some (PSites (_identify_binding_sites a))
    /\ dict_get "ir_frequencies" properties
       = Some (PFreqs (_estimate_ir_frequencies a))
    /\ dict_get "uv_vis_absorption" properties = Some (PFloat (_estimate_uv_vis a))
    /\ heap w' = heap w
    /\ stdout w' = stdout w
    /\ written w' = written w.
Proof.
  intros Hnone Ha.
  destruct (calculate_properties_none_runs self complex_atoms w a Hnone Ha)
    as (gap & dipole & binding & g & Hrun).
  eexists _, _. split; [exact Hrun |].
  repeat split.
Qed.

(** X13: for an existing structure the dictionary always holds the
    number of atoms, the volume and the centre of mass of that
    structure, also when a later computation fails. *)
Theorem calculate_properties_keeps_geometric_entries (self : analyzer)
    (complex_atoms : loc) (w : world) (a : atoms) :
  heap w !! complex_atoms = Some a ->
  let properties := fst (calculate_properties self complex_atoms w) in
  exists d : dict,
    properties = Returns d
    /\ dict_get "total_atoms" d = Some (PInt (len a))
    /\ dict_get "molecular_volume" d = Some (PFloat (_calculate_molecular_volume a))
    /\ dict_get "center_of_mass" d
       = Some (PList (vec_tolist (get_center_of_mass a))).
Proof.
  intros Ha properties. subst properties.
  set (J := fun d : dict =>
         dict_get "total_atoms" d = Some (PInt (len a))
         /\ dict_get "molecular_volume" d
            = Some (PFloat (_calculate_molecular_volume a))
         /\ dict_get "center_of_mass" d
            = Some (PList (vec_tolist (get_center_of_mass a)))).
  assert (Hkeep : forall key v,
             key <> "total_atoms" -> key <> "molecular_volume" ->
             key <> "center_of_mass" ->
             forall d, J d -> J (dict_set key v d)).
  { intros key v H1 H2 H3 d (Hd1 & Hd2 & Hd3). unfold J.
    rewrite !dict_get_set_other by congruence. auto. }
  assert (Hbody : on_dict J (snd (calculate_properties_body self complex_atoms ([], w)))).
  { unfold calculate_properties_body.
    rewrite (bind_returns _ _ _ _ _ (lift_returns _ _ _ _ _ (deref_Some _ _ _ Ha))).
    do 3 rewrite (bind_returns _ _ _ _ _ (eq_refl : set_item _ _ _ = (Returns tt, _))).
    match goal with |- on_dict J (snd (?m ?s)) =>
      assert (Hinv : invariant (on_dict J) m);
        [| apply Hinv; unfold on_dict, J; cbn; auto] end.
    unfold_methods. repeat inv_step; apply Hkeep; discriminate. }
  rewrite calculate_properties_runs. unfold on_dict in Hbody.
  destruct (calculate_properties_body self complex_atoms ([], w))
    as [[[] | e] [partial w0]]; cbn [fst snd] in *.
  - exists partial. split; [reflexivity | exact Hbody].
  - eexists. split; [reflexivity |]. apply Hkeep; [discriminate .. | exact Hbody].
Qed.
End PropertyEntries.

Section PipelineFiles.
Context {E : Externals}.

(** X14: a call of [analyze_complex] that returns has written, after
    the files there were, at most three trajectory files of the
    optimizer (none when there is no calculator) and then exactly two
    files of its own: [<prefix>_optimized.gjf] with one coordinate row
    per atom of the structure it returns, then
    [<prefix>_properties.txt] with one row per entry of the dictionary
    it returns. *)
Theorem analyze_complex_writes_two_files (self : analyzer)
    (absorbent_file analyte_file output_prefix : string) (w w' : world)
    (final_complex : loc) (properties : dict) :
  analyze_complex self absorbent_file analyte_file output_prefix w
  = (Returns (final_complex, properties), w') ->
  exists (C : atoms) (trajectories : list (string * list chunk)),
    heap w' !! final_complex = Some C
    /\ written w'
       = written w ++ trajectories
         ++ [(output_prefix +:+ "_optimized.gjf",
              gjf_chunks "Optimized Absorbent-Analyte Complex" "B3LYP" "6-31G(d)"
                         0 1 C);
             (output_prefix +:+ "_properties.txt", properties_chunks properties)]
    /\ Forall is_trajectory trajectories
    /\ length trajectories <= 3
    /\ (fairchem_calc self = None -> trajectories = []).
Proof.
  intros H.
  destruct (parse_outcome absorbent_file) as [A | e] eqn:HA;
    [| rewrite (analyze_complex_first_raises _ _ _ _ _ _ HA) in H; discriminate].
  destruct (parse_outcome analyte_file) as [B | e] eqn:HB;
    [| rewrite (analyze_complex_second_raises _ _ _ _ _ _ _ HA HB) in H;
       discriminate].
  destruct (analyze_complex_first_five_steps self absorbent_file analyte_file
              output_prefix w A B HA HB)
    as (final & props & w7 & C & l2 & l4 & l5 & files
        & _ & Hrun & HC & _ & _ & _ & _ & Hw & Htraj & Hlen & Hnone).
  rewrite Hrun in H.
  rewrite (save_results_runs _ _ _ (printed "6. Saving results..." w7) _ HC) in H.
  cbv zeta in H.
  destruct (write_error (output_prefix +:+ "_optimized.gjf")); [discriminate |].
  destruct (write_error (output_prefix +:+ "_properties.txt")); [discriminate |].
  injection H as <- <- <-.
  exists C, files. cbn [heap written printed with_file].
  split; [exact HC |]. split; [| auto].
  rewrite Hw, <- !app_assoc. reflexivity.
Qed.
End PipelineFiles.

Section PipelineOutcome.
Context {E : Externals}.

(** the run of the pipeline when there is no calculator *)
Lemma analyze_complex_none_runs (self : analyzer)
    (absorbent_file analyte_file output_prefix : string) (w : world)
    (A B : atoms) :
  fairchem_calc self = None ->
  parse_outcome absorbent_file = Returns A ->
  parse_outcome analyte_file = Returns B ->
  write_error (output_prefix +:+ "_optimized.gjf") = None ->
  write_error (output_prefix +:+ "_properties.txt") = None ->
  let moved := translated (complex_offset A B 3.0) (copy_of B) in
  let C := extended moved (copy_of A) in
  exists (gap dipole binding : R) (w' : world),
    analyze_complex self absorbent_file analyte_file output_prefix w
    = (Returns
         (length (heap w) + 3,
          [("total_atoms", PInt (len C));
           ("molecular_volume", PFloat (_calculate_molecular_volume C));
           ("center_of_mass", PList (vec_tolist (get_center_of_mass C)));
           ("homo_lumo_gap", PFloat gap);
           ("dipole_moment", PFloat dipole);
           ("polarizability", PFloat (0.1 * _calculate_molecular_volume C));
           ("binding_energy", PFloat binding);
           ("binding_sites", PSites (_identify_binding_sites C));
           ("ir_frequencies", PFreqs (_estimate_ir_frequencies C));
           ("uv_vis_absorption", PFloat (_estimate_uv_vis C))]), w')
    /\ heap w' = heap w ++ [A; B; moved; C].
Proof.
  intros Hnone HA HB Hgjf Hprops moved C. unfold analyze_complex.
  do 2 rewrite (bind_returns _ _ _ _ _ (eq_refl : print _ _ = (Returns tt, _))).
  erewrite bind_returns by (rewrite parse_gjf_file_outcome, HA; reflexivity).
  erewrite bind_returns by (rewrite parse_gjf_file_outcome, HB; reflexivity).
  set (w1 := allocated A (complained absorbent_file _)).
  set (w2 := allocated B (complained analyte_file w1)).
  assert (Hh2 : heap w2 = heap w ++ [A; B]).
  { subst w2 w1. cbn [heap allocated set_heap].
    rewrite heap_complained. cbn [heap allocated set_heap].
    rewrite heap_complained. cbn [heap printed]. now rewrite <- app_assoc. }
  assert (Hn2 : length (heap w1) = S (length (heap w))).
  { subst w1. cbn [heap allocated set_heap].
    rewrite length_app, heap_complained. cbn. lia. }
  cbn [heap printed]. rewrite Hn2.
  assert (Hl1 : heap w2 !! length (heap w) = Some A)
    by (rewrite Hh2; apply lookup_new).
  assert (Hl2 : heap w2 !! S (length (heap w)) = Some B)
    by (rewrite Hh2; apply lookup_second_new).
  rewrite (bind_returns _ _ _ _ _ (len_of_returns w2 _ A Hl1)).
  rewrite (bind_returns _ _ _ _ _ (eq_refl : print _ _ = (Returns tt, _))).
  rewrite (bind_returns _ _ _ _ _ (len_of_returns (printed _ w2) _ B Hl2)).
  do 2 rewrite (bind_returns _ _ _ _ _ (eq_refl : print _ _ = (Returns tt, _))).
  do 2 rewrite (bind_returns _ _ _ _ _
                  (optimize_structure_without_calculator self _ _ _ _ Hnone)).
  rewrite (bind_returns _ _ _ _ _ (eq_refl : print _ _ = (Returns tt, _))).
  erewrite bind_returns
    by (apply (create_complex_runs _ _ _ A B); [exact Hl1 | exact Hl2]).
  fold moved. fold C.
  rewrite (bind_returns _ _ _ _ _ (eq_refl : print _ _ = (Returns tt, _))).
  unfold optimize_complex.
  rewrite (bind_returns _ _ _ _ _
             (optimize_structure_without_calculator self _ _ _ _ Hnone)).
  rewrite (bind_returns _ _ _ _ _ (eq_refl : print _ _ = (Returns tt, _))).
  cbn [heap printed set_heap].
  match goal with |- context [bind (calculate_properties self ?l) _ ?w0] =>
    assert (HC : heap w0 !! l = Some C)
      by (cbn [heap printed set_heap]; apply lookup_second_new);
    destruct (calculate_properties_none_runs self l w0 C Hnone HC)
      as (gap & dipole & binding & g & Hprops')
  end.
  rewrite (bind_returns _ _ _ _ _ Hprops').
  rewrite (bind_returns _ _ _ _ _ (eq_refl : print _ _ = (Returns tt, _))).
  match goal with |- context [bind (save_gjf_file ?l _ _ _ _ _ _) _ ?w0] =>
    assert (HC' : heap w0 !! l = Some C)
      by (cbn [heap printed with_rng set_heap]; apply lookup_second_new);
    rewrite (bind_returns _ _ _ _ _
               (eq_trans (save_gjf_file_runs l _ _ _ _ _ _ w0 C HC')
                         ltac:(rewrite Hgjf; reflexivity)))
  end.
  erewrite bind_returns by (rewrite write_properties_runs, Hprops; reflexivity).
  rewrite (bind_returns _ _ _ _ _ (eq_refl : print _ _ = (Returns tt, _))).
  exists gap, dipole, binding. eexists. split.
  { unfold ret. f_equal. f_equal. f_equal. rewrite Hh2, length_app. simpl. lia. }
  cbn [heap printed with_file with_rng set_heap]. rewrite Hh2, <- app_assoc.
  reflexivity.
Qed.

(** X16: without a calculator, with two inputs that are parsed and two
    outputs that can be opened, [analyze_complex] returns the parsed
    absorbent followed by the parsed analyte moved by the offset for
    3.0, unoptimized; the two parsed structures are in the store as
    they were parsed, and the dictionary counts the atoms of both and
    has no error. *)
Theorem analyze_complex_without_calculator (self : analyzer)
    (absorbent_file analyte_file output_prefix : string) (w : world)
    (A B : atoms) :
  fairchem_calc self = None ->
  parse_outcome absorbent_file = Returns A ->
  parse_outcome analyte_file = Returns B ->
  write_error (output_prefix +:+ "_optimized.gjf") = None ->
  write_error (output_prefix +:+ "_properties.txt") = None ->
  exists (final_complex : loc) (properties : dict) (w' : world) (C : atoms),
    analyze_complex self absorbent_file analyte_file output_prefix w
    = (Returns (final_complex, properties), w')
    /\ heap w' !! final_complex = Some C
    /\ symbols C = symbols A ++ symbols B
    /\ positions C
       = positions A
         ++ map (fun p => vadd p (complex_offset A B 3.0)) (positions B)
    /\ heap w' !! length (heap w) = Some A
    /\ heap w' !! S (length (heap w)) = Some B
    /\ dict_get "total_atoms" properties = Some (PInt (len A + len B))
    /\ dict_get "error" properties = None.
Proof.
  intros Hnone HA HB Hgjf Hprops.
  destruct (analyze_complex_none_runs self absorbent_file analyte_file
              output_prefix w A B Hnone HA HB Hgjf Hprops)
    as (gap & dipole & binding & w' & Hrun & Hheap).
  assert (Hat : forall i x, [A; B; translated (complex_offset A B 3.0) (copy_of B);
                             extended (translated (complex_offset A B 3.0) (copy_of B))
                                      (copy_of A)] !! i = Some x ->
                       heap w' !! (length (heap w) + i) = Some x).
  { intros i x Hi. rewrite Hheap, lookup_app_r by lia.
    now replace (length (heap w) + i - length (heap w)) with i by lia. }
  eexists _, _, _, _. split; [exact Hrun |].
  split; [apply (Hat 3); reflexivity |].
  split; [reflexivity |]. split; [reflexivity |].
  split; [rewrite <- (Nat.add_0_r (length (heap w))); apply (Hat 0); reflexivity |].
  split; [rewrite <- Nat.add_1_r; apply (Hat 1); reflexivity |].
  split; [| reflexivity].
  change (Some (PInt (len (extended (translated (complex_offset A B 3.0) (copy_of B))
                                   (copy_of A))))
          = Some (PInt (len A + len B))).
  do 2 f_equal. unfold len. cbn [extended translated copy_of positions].
  now rewrite length_app, length_map.
Qed.
End PipelineOutcome.


(** ** Loading the models *)

Section Setup.
Context {E : Externals}.

(** [setup_models], given what the two constructors ([OCPCalculator]
    and [GemNetT]) do when called: the analyzer's calculator and its
    GemNet model afterwards. *)
Definition setup_models {Gemnet : Type}
    (new_calculator : result Calc) (new_gemnet : result Gemnet)
  : St world (analyzer * option Gemnet) :=
  try_except
    (let! fairchem_calc := of_result new_calculator in
     let! gemnet_model := of_result new_gemnet in
     do! print "Models initialized successfully!" in
     ret (mkAnalyzer (Some fairchem_calc), Some gemnet_model))
    (fun e =>
       do! print ("Error initializing models: " +:+ str e) in
       ret (mkAnalyzer None, None)).

(** X17: [setup_models] never raises and is all or nothing: the analyzer
    has a calculator exactly when both constructors returned; when
    either raised, every later [optimize_structure] hands back the
    structure it is given and only prints. *)
Theorem setup_models_all_or_nothing {Gemnet : Type}
    (new_calculator : result Calc) (new_gemnet : result Gemnet) (w : world) :
  exists (self : analyzer) (gemnet_model : option Gemnet) (w' : world),
    setup_models new_calculator new_gemnet w = (Returns (self, gemnet_model), w')
    /\ heap w' = heap w
    /\ (forall c, fairchem_calc self = Some c <->
          new_calculator = Returns c /\ exists g, new_gemnet = Returns g)
    /\ (gemnet_model = None <-> fairchem_calc self = None)
    /\ ((exists e, new_calculator = Raises e) \/ (exists e, new_gemnet = Raises e) ->
        forall atoms fmax steps w0,
          optimize_structure self atoms fmax steps w0
          = (Returns atoms,
             printed "FairChem calculator not available, returning original structure"
                     w0)).
Proof.
  unfold setup_models, try_except, bind, of_result.
  destruct new_calculator as [c | e1], new_gemnet as [g | e2]; cbn;
    eexists _, _, _; (split; [reflexivity |]); (split; [reflexivity |]);
    cbn [fairchem_calc].
  - split; [intros c'; split; [intros [= <-]; eauto | intros [[= <-] _]; reflexivity] |].
    split; [split; discriminate |].
    intros [[e He] | [e He]]; discriminate.
  - split; [intros c'; split; [discriminate | intros [_ [g' Hg]]; discriminate] |].
    split; [tauto |]. intros _ atoms fmax steps w0.
    now apply optimize_structure_without_calculator.
  - split; [intros c'; split; [discriminate | intros [Hc _]; discriminate] |].
    split; [tauto |]. intros _ atoms fmax steps w0.
    now apply optimize_structure_without_calculator.
  - split; [intros c'; split; [discriminate | intros [Hc _]; discriminate] |].
    split; [tauto |]. intros _ atoms fmax steps w0.
    now apply optimize_structure_without_calculator.
Qed.

End Setup.

(** ** The further properties on the demonstration *)

Lemma manual_parse_clean_file_well_formed_witness :
  exists a : @atoms Demo.externals,
    heap (allocated Demo.water Demo.world0) !! 0 = Some a /\ well_formed a.
Proof.
  apply (manual_parse_clean_file_well_formed "water.gjf" Demo.world0 _ 0).
  - cbv -[FloatLiteral.to_R]. reflexivity.
  - exact manual_parse_water_run.
Defined.

Lemma scan_lines_skips_header_witness :
  scan_lines (E := Demo.externals)
    (map Demo.line ["%mem=2GB"; "# B3LYP/6-31G(d) opt"; ""; "Carbon monoxide"; "";
                    "0 1"]
     ++ map Demo.line ["C 0.0 0.0 0.0"; "O 0.0 0.0 1.128"; ""])
  = scan_lines (E := Demo.externals)
      (map Demo.line ["C 0.0 0.0 0.0"; "O 0.0 0.0 1.128"; ""]).
Proof.
  apply (scan_lines_skips_header (E := Demo.externals)). reflexivity.
Defined.

Lemma scan_lines_ignores_passed_over_witness :
  scan_lines (E := Demo.externals)
    (map Demo.line ["C 0.0 0.0 0.0"] ++ Demo.line "# oxygen next"
     :: map Demo.line ["O 0.0 0.0 1.128"])
  = scan_lines (E := Demo.externals)
      (map Demo.line ["C 0.0 0.0 0.0"] ++ map Demo.line ["O 0.0 0.0 1.128"]).
Proof.
  apply (scan_lines_ignores_passed_over (E := Demo.externals)). reflexivity.
Defined.

Lemma parse_gjf_file_frame_witness :
  written (allocated (E := Demo.externals) Demo.hydrogen Demo.world0)
  = written Demo.world0
  /\ heap (allocated (E := Demo.externals) Demo.hydrogen Demo.world0)
     = [Demo.hydrogen].
Proof.
  destruct (parse_gjf_file_frame (E := Demo.externals) "hydrogen.gjf" Demo.world0
              (allocated (E := Demo.externals) Demo.hydrogen Demo.world0)
              (Returns 0) eq_refl)
    as (Hw & _).
  split; [exact Hw | reflexivity].
Defined.

Lemma uv_vis_grows_until_400_atoms_witness :
  (_estimate_uv_vis Demo.water <= _estimate_uv_vis Demo.carbon_monoxide)%R.
Proof.
  apply (uv_vis_grows_until_400_atoms Demo.water Demo.carbon_monoxide).
  unfold conjugated_atoms. simpl. lia.
Defined.

Lemma calculate_properties_without_calculator_witness :
  exists (properties : dict) (w' : @world Demo.externals),
    calculate_properties Demo.without_calculator 1 Demo.world1
    = (Returns properties, w')
    /\ dict_get "total_atoms" properties = Some (PInt 3)
    /\ dict_get "error" properties = None.
Proof.
  destruct (calculate_properties_without_calculator Demo.without_calculator 1
              Demo.world1 Demo.water eq_refl eq_refl)
    as (properties & w' & Hrun & _ & Herr & Htotal & _).
  exists properties, w'. auto.
Defined.

(** with the calculator that has no forces *)
Lemma calculate_properties_keeps_geometric_entries_witness :
  exists d : dict,
    fst (calculate_properties Demo.with_calculator 1 Demo.world1) = Returns d
    /\ dict_get "total_atoms" d = Some (PInt 3).
Proof.
  destruct (calculate_properties_keeps_geometric_entries Demo.with_calculator 1
              Demo.world1 Demo.water eq_refl)
    as (d & Hd & Htotal & _).
  exists d. auto.
Defined.

Lemma analyze_complex_writes_two_files_witness :
  exists (final_complex : loc) (properties : dict) (w' : @world Demo.externals)
         (C : @atoms Demo.externals),
    analyze_complex Demo.without_calculator "co.gjf" "water.gjf" "out" Demo.world0
    = (Returns (final_complex, properties), w')
    /\ heap w' !! final_complex = Some C
    /\ written w'
       = [("out_optimized.gjf",
           gjf_chunks "Optimized Absorbent-Analyte Complex" "B3LYP" "6-31G(d)"
                      0 1 C);
          ("out_properties.txt", properties_chunks properties)].
Proof.
  destruct (analyze_complex_none_runs Demo.without_calculator "co.gjf" "water.gjf"
              "out" Demo.world0 Demo.carbon_monoxide Demo.water eq_refl
              parse_outcome_co parse_outcome_water eq_refl eq_refl)
    as (gap & dipole & binding & w' & Hrun & _).
  destruct (analyze_complex_writes_two_files _ _ _ _ _ _ _ _ Hrun)
    as (C & trajectories & HC & Hfiles & _ & _ & Hnone).
  rewrite (Hnone eq_refl) in Hfiles.
  eexists _, _, w', C. split; [exact Hrun |]. split; [exact HC | exact Hfiles].
Defined.

Lemma analyze_complex_without_calculator_witness :
  exists (final_complex : loc) (properties : dict) (w' : @world Demo.externals)
         (C : @atoms Demo.externals),
    analyze_complex Demo.without_calculator "co.gjf" "water.gjf" "out" Demo.world0
    = (Returns (final_complex, properties), w')
    /\ heap w' !! final_complex = Some C
    /\ symbols C = ["C"; "O"; "O"; "H"; "H"]
    /\ dict_get "total_atoms" properties = Some (PInt 5).
Proof.
  destruct (analyze_complex_without_calculator Demo.without_calculator
              "co.gjf" "water.gjf" "out" Demo.world0
              Demo.carbon_monoxide Demo.water eq_refl
              parse_outcome_co parse_outcome_water eq_refl eq_refl)
    as (final & props & w' & C & Hrun & HC & Hsym & _ & _ & _ & Htotal & _).
  exists final, props, w', C. auto.
Defined.
